(** * fitfusion-mobile: the agentic retrieval-refinement controller

    A shallow embedding of [backend/agentic_rag.py] (class
    [AgenticFitnessRAG]) and the properties of its control loop.

    Conventions of the embedding.
    - Python [float] is IEEE 754 binary64: scores are Rocq's primitive
      [float], with the same operations and comparisons.  [sum] over a
      generator of floats is the left-to-right addition starting from 0
      (CPython up to 3.11; later versions compensate the rounding error of
      the additions, which can change the last bit of a sum).
    - Python [int] is [Z]; a [len] is a [nat], converted to [float]
      exactly (lengths stay far below 2^53).
    - Python [str] is [string]; [lower] folds the ASCII letters.
    - A dict read through [.get(key, default)] is a [gmap] (or an [option]
      field when the dict is a fixed-shape record) read with [default].
    - The vector store is an abstract stateful capability: a function from
      its state and a query to a new state and either a list of hits or a
      raised exception.
    - An exception that leaves a method is a value [Raise e] of the small
      error monad [result]. *)

From Stdlib Require Import ZArith List String Ascii Bool Lia.
From Stdlib Require Import Floats.PrimFloat Numbers.Cyclic.Int63.Uint63.
From stdpp Require Import base option list gmap strings.

Set Warnings "-inexact-float".

Local Open Scope Z_scope.
Local Open Scope string_scope.
Local Open Scope list_scope.

(** ** Python values used by the module *)

Module Py.

(** [str.lower()], on ASCII. *)
Definition lower_ascii (c : ascii) : ascii :=
  let n := nat_of_ascii c in
  if ((65 <=? n) && (n <=? 90))%nat then ascii_of_nat (n + 32) else c.

Fixpoint lower (s : string) : string :=
  match s with
  | EmptyString => EmptyString
  | String c s' => String (lower_ascii c) (lower s')
  end.

(** [needle in hay] for strings. *)
Fixpoint contains (needle hay : string) : bool :=
  String.prefix needle hay
  || match hay with
     | EmptyString => false
     | String _ hay' => contains needle hay'
     end.

(** [s.replace(old, new)] for a non-empty [old]: every occurrence, left
    to right, without overlap.  [skip] counts the characters of a match
    still to be dropped. *)
Fixpoint replace_from (old new : string) (skip : nat) (s : string) : string :=
  match s with
  | EmptyString => EmptyString
  | String c s' =>
      match skip with
      | S k => replace_from old new k s'
      | O =>
          if String.prefix old s
          then new ++ replace_from old new (String.length old - 1) s'
          else String c (replace_from old new 0 s')
      end
  end.

Definition replace (old new s : string) : string := replace_from old new 0 s.

(** [float(n)] for a length or a count. *)
Definition of_nat (n : nat) : float :=
  PrimFloat.of_uint63 (Uint63.of_Z (Z.of_nat n)).

(** [sum(xs)] over floats. *)
Definition sum (xs : list float) : float :=
  fold_left PrimFloat.add xs 0%float.

(** [min(a, b)]: the first argument unless the second is smaller. *)
Definition min (a b : float) : float :=
  if PrimFloat.ltb b a then b else a.

(** Truth value of a float: [x != 0.0]. *)
Definition truthy (x : float) : bool := negb (PrimFloat.eqb x 0%float).

(** [len(set(xs))] for strings. *)
Definition distinct (xs : list string) : nat := length (remove_dups xs).

(** [any(term in s for term in terms)]. *)
Definition any_in (terms : list string) (s : string) : bool :=
  existsb (fun term => contains term s) terms.

End Py.

(** ** The error monad *)

Inductive exn := ZeroDivisionError.

Inductive result (A : Type) :=
| Return (a : A)
| Raise (e : exn).
Arguments Return {A} a.
Arguments Raise {A} e.

Definition bind {A B} (m : result A) (k : A -> result B) : result B :=
  match m with
  | Return a => k a
  | Raise e => Raise e
  end.

Notation "x <~ m ;; k" := (bind m (fun x => k))
  (at level 100, m at next level, right associativity).

(** ** Data model *)

Inductive AgentStrategy :=
| BROAD_SEARCH
| TARGETED_SEARCH
| PROGRESSIVE_REFINEMENT
| MULTI_ANGLE_APPROACH.

Definition value (s : AgentStrategy) : string :=
  match s with
  | BROAD_SEARCH => "broad_search"
  | TARGETED_SEARCH => "targeted_search"
  | PROGRESSIVE_REFINEMENT => "progressive_refinement"
  | MULTI_ANGLE_APPROACH => "multi_angle_approach"
  end.

Record SearchResult := {
  content : string;
  relevance_score : float;
  source : string;
  exercise_type : string;
  target_muscles : list string;
  difficulty : string
}.

Record AgentPlan := {
  primary_goal : string;
  sub_goals : list string;
  search_strategies : list AgentStrategy;
  expected_iterations : Z;
  success_criteria : gmap string float
}.

(** One hit of the search capability: the dict
    [{content, metadata, distance}], whose [distance] may be [None];
    [muscle_groups] and [difficulty] are the two further keys the targeted
    strategy reads. *)
Record Exercise := {
  ex_content : option string;
  ex_metadata : option (gmap string string);
  ex_distance : option float;
  ex_muscle_groups : option (list string);
  ex_difficulty : option string
}.

(** The dict returned by [_assess_result_quality]: the four scores are
    always present, the key [meets_criteria] only on the non-empty path. *)
Record QualityAssessment := {
  overall_score : float;
  relevance : float;
  coverage : float;
  diversity : float;
  meets_criteria : option bool
}.

(** [quality_assessment.get("meets_criteria", False)]. *)
Definition get_meets_criteria (q : QualityAssessment) : bool :=
  default false (meets_criteria q).

(** The raw request fields read by this module.  [age] is what
    [int(user_data.get('age', 30))] converts, when the key is present. *)
Record UserData := {
  age : option Z;
  agent_type : option string
}.

(** The part of the profile dict that the planner and the loop read:
    [visual_assessment] holds only truthy values, so it is the set of its
    keys. *)
Record UserProfile := {
  profile_primary_goal : string;
  fitness_level : string;
  visual_assessment : gset string;
  image_analysis : string
}.

(** The controller instance: its two configuration values. *)
Record Config := {
  max_iterations : Z;
  reflection_mode : bool
}.

(** One record of [self.successful_strategies]. *)
Record MemoryEntry := {
  quality_score : float;
  result_count : nat;
  timestamp : string
}.

(** ** Profile analysis *)

Definition _infer_fitness_level (user_data : UserData) (image_analysis : string)
  : string :=
  let age := default 30 (age user_data) in
  let by_age :=
    if (age <? 25)%Z then "beginner_to_intermediate"
    else if (50 <? age)%Z then "experienced_but_cautious"
    else "intermediate" in
  match image_analysis with
  | EmptyString => by_age
  | _ =>
      let analysis_lower := Py.lower image_analysis in
      if Py.contains "advanced" analysis_lower
         || Py.contains "muscular" analysis_lower
         || Py.contains "athletic" analysis_lower
      then "advanced"
      else if Py.contains "beginner" analysis_lower
              || Py.contains "sedentary" analysis_lower
              || Py.contains "limited experience" analysis_lower
      then "beginner"
      else if Py.contains "intermediate" analysis_lower
              || Py.contains "moderate" analysis_lower
      then "intermediate"
      else by_age
  end.

Definition _extract_visual_insights (image_analysis : string) : gset string :=
  match image_analysis with
  | EmptyString => ∅
  | _ =>
      let analysis_lower := Py.lower image_analysis in
      let on (terms : list string) (keys : gset string) : gset string :=
        if Py.any_in terms analysis_lower then keys else ∅ in
      on ["form"; "posture"; "alignment"; "technique"]
         {[ "form_issues"; "form_assessment" ]}
      ∪ on ["dumbbell"; "barbell"; "machine"; "gym"; "weight"; "kettlebell"; "band"]
           {[ "equipment_available"; "equipment_assessment" ]}
      ∪ on ["muscular"; "athletic"; "beginner"; "advanced"; "experienced"; "sedentary"]
           {[ "current_fitness_level"; "fitness_level_visual" ]}
      ∪ on ["flexibility"; "mobility"; "stiff"; "range of motion"; "tight"]
           {[ "mobility_issues"; "mobility_assessment" ]}
      ∪ on ["muscle definition"; "body fat"; "physique"; "composition"]
           {[ "muscle_definition"; "body_composition" ]}
      ∪ on ["rounded shoulders"; "forward head"; "slouch"; "posture"]
           {[ "posture_issues"; "postural_assessment" ]}
  end.

Definition _analyze_user_profile (user_data : UserData) (image_analysis : string)
  : UserProfile :=
  {| profile_primary_goal := default "general" (agent_type user_data);
     fitness_level := _infer_fitness_level user_data image_analysis;
     visual_assessment := _extract_visual_insights image_analysis;
     image_analysis := image_analysis |}.

(** ** Planner *)

(** [visual_insights.get(key)] as a condition. *)
Definition has_insight (visual_insights : gset string) (key : string) : bool :=
  bool_decide (key ∈ visual_insights).

(** [if visual_insights.get(key): sub_goals.append(goal)]. *)
Definition append_if (visual_insights : gset string) (key goal : string)
    (sub_goals : list string) : list string :=
  if has_insight visual_insights key then sub_goals ++ [goal] else sub_goals.

Definition success_criteria_default : gmap string float :=
  <[ "relevance_threshold" := 0.7%float ]>
  (<[ "coverage_target" := 0.8%float ]>
  (<[ "diversity_minimum" := 3%float ]>
  (<[ "practical_applicability" := 0.9%float ]> ∅))).

Definition _create_strategic_plan (self : Config) (user_profile : UserProfile)
  : AgentPlan :=
  let primary_goal := profile_primary_goal user_profile in
  let visual_insights := visual_assessment user_profile in
  let '(sub_goals, strategies) :=
    if String.eqb primary_goal "weight_loss" then
      (append_if visual_insights "equipment_available" "utilize_available_equipment"
        (append_if visual_insights "form_issues" "address_form_corrections"
          ["find_high_intensity_cardio"; "identify_calorie_burning_exercises";
           "locate_nutrition_guidance"; "discover_progression_strategies"]),
       [BROAD_SEARCH; TARGETED_SEARCH])
    else if String.eqb primary_goal "muscle_gain" then
      (append_if visual_insights "posture_issues" "address_postural_corrections"
        (append_if visual_insights "muscle_definition" "target_specific_muscle_groups"
          ["find_progressive_strength_exercises"; "identify_muscle_building_protocols";
           "locate_nutrition_for_growth"; "discover_recovery_strategies"]),
       [TARGETED_SEARCH; PROGRESSIVE_REFINEMENT])
    else if String.eqb primary_goal "cardio" then
      (append_if visual_insights "equipment_available" "optimize_available_equipment"
        (append_if visual_insights "current_fitness_level" "adjust_intensity_for_level"
          ["find_endurance_training_methods"; "identify_cardio_progressions";
           "locate_heart_rate_guidance"; "discover_training_variations"]),
       [BROAD_SEARCH; MULTI_ANGLE_APPROACH])
    else
      (append_if visual_insights "equipment_assessment" "adapt_for_equipment_constraints"
        (append_if visual_insights "mobility_issues" "address_mobility_limitations"
          (append_if visual_insights "form_assessment" "improve_exercise_form"
            ["find_foundational_exercises"; "identify_balanced_routines";
             "locate_beginner_progressions"; "discover_safety_guidelines"])),
       [BROAD_SEARCH; PROGRESSIVE_REFINEMENT]) in
  {| primary_goal := primary_goal;
     sub_goals := sub_goals;
     search_strategies := strategies;
     expected_iterations := Z.min (Z.of_nat (length sub_goals)) (max_iterations self);
     success_criteria := success_criteria_default |}.

(** ** Strategy selection *)

Definition general_terms : list string := ["general"; "basic"; "beginner"; "simple"].

(** [sum(1 for r in results if any(term in r.exercise_type.lower() ...))]. *)
Definition general_count (results : list SearchResult) : nat :=
  length (filter (fun r => Py.any_in general_terms (Py.lower (exercise_type r)) = true)
                 results).

Definition _results_lack_specificity (results : list SearchResult) : bool :=
  PrimFloat.ltb (Py.of_nat (length results) * 0.7)%float
                (Py.of_nat (general_count results)).

(** [sum(...) / len(results) if results else 0]. *)
Definition average_relevance (results : list SearchResult) : float :=
  match results with
  | [] => 0%float
  | _ => (Py.sum (map relevance_score results) / Py.of_nat (length results))%float
  end.

Definition _results_need_refinement (results : list SearchResult) : bool :=
  let avg_score := average_relevance results in
  PrimFloat.ltb 0.4%float avg_score && PrimFloat.ltb avg_score 0.7%float.

(** [xs[i % len(xs)]] for a non-negative [i]: the modulo raises on an
    empty list. *)
Definition cyclic_index {A} (xs : list A) (i : nat) : result A :=
  match xs with
  | [] => Raise ZeroDivisionError
  | x :: _ => Return (nth (i mod length xs) xs x)
  end.

Definition _select_optimal_strategy (plan : AgentPlan)
    (current_results : list SearchResult) (iteration : nat) : result AgentStrategy :=
  if (iteration =? 0)%nat then Return BROAD_SEARCH
  else if (length current_results <? 3)%nat then Return MULTI_ANGLE_APPROACH
  else if _results_lack_specificity current_results then Return TARGETED_SEARCH
  else if _results_need_refinement current_results then Return PROGRESSIVE_REFINEMENT
  else cyclic_index (search_strategies plan) iteration.

(** ** Quality assessment and the stopping policy *)

Definition _assess_result_quality (new_results : list SearchResult) (plan : AgentPlan)
    (all_results : list SearchResult) : result QualityAssessment :=
  match new_results with
  | [] =>
      Return {| overall_score := 0%float; relevance := 0%float; coverage := 0%float;
                diversity := 0%float; meets_criteria := None |}
  | _ =>
      let avg_relevance :=
        (Py.sum (map relevance_score new_results)
         / Py.of_nat (length new_results))%float in
      let cumulative := all_results ++ new_results in
      let all_exercise_types := Py.distinct (map exercise_type cumulative) in
      match sub_goals plan with
      | [] => Raise ZeroDivisionError
      | _ =>
          let coverage :=
            Py.min (Py.of_nat all_exercise_types
                    / Py.of_nat (length (sub_goals plan)))%float 1%float in
          let all_muscles := Py.distinct (concat (map target_muscles cumulative)) in
          let all_difficulties := Py.distinct (map difficulty cumulative) in
          let diversity :=
            Py.min (Py.of_nat (all_muscles + all_difficulties) / 10)%float 1%float in
          let overall_score :=
            (avg_relevance * 0.4 + coverage * 0.3 + diversity * 0.3)%float in
          Return {| overall_score := overall_score;
                    relevance := avg_relevance;
                    coverage := coverage;
                    diversity := diversity;
                    meets_criteria :=
                      Some (PrimFloat.leb
                              (default 0.7%float
                                 (success_criteria plan !! "relevance_threshold"))
                              overall_score) |}
      end
  end.

Definition _should_stop_searching (self : Config) (quality_assessment : QualityAssessment)
    (plan : AgentPlan) (iteration : nat) : bool :=
  if get_meets_criteria quality_assessment then true
  else if (max_iterations self - 1 <=? Z.of_nat iteration)%Z then true
  else if PrimFloat.leb 0.9%float (overall_score quality_assessment) then true
  else false.

(** ** Agent memory *)

Definition _update_agent_memory (successful_strategies : gmap string (list MemoryEntry))
    (strategy : AgentStrategy) (results : list SearchResult) (quality : QualityAssessment)
  : gmap string (list MemoryEntry) :=
  let strategy_key := value strategy in
  let m1 :=
    match successful_strategies !! strategy_key with
    | None => <[ strategy_key := [] ]> successful_strategies
    | Some _ => successful_strategies
    end in
  let entries :=
    default [] (m1 !! strategy_key)
    ++ [ {| quality_score := overall_score quality;
            result_count := length results;
            timestamp := "current" |} ] in
  let m2 := <[ strategy_key := entries ]> m1 in
  if (10 <? length entries)%nat
  then <[ strategy_key := drop (length entries - 10) entries ]> m2
  else m2.

(** ** Search strategies

    [self.vector_store.search_exercises(query, filters=None, top_k)] is the
    external capability: from the store's state and a query it yields the
    next state and either the hits or [None] when the call raises. *)

Definition SearchCapability (St : Type) : Type :=
  St -> string -> nat -> St * option (list Exercise).

(** [exercise.get("distance", 0) if exercise.get("distance") else fallback]:
    the fallback is taken when the distance is missing, [None] or zero. *)
Definition distance_or (fallback : float) (exercise : Exercise) : float :=
  match ex_distance exercise with
  | Some d => if Py.truthy d then d else fallback
  | None => fallback
  end.

(** [metadata.get(key, fallback)] with [metadata = exercise.get('metadata', {})]. *)
Definition metadata_get (exercise : Exercise) (key fallback : string) : string :=
  default fallback (default ∅ (ex_metadata exercise) !! key).

Definition broad_result (exercise : Exercise) : SearchResult :=
  {| content := default "" (ex_content exercise);
     relevance_score := (1 - distance_or 0.5 exercise)%float;
     source := "chromadb";
     exercise_type := metadata_get exercise "type" "general";
     target_muscles := [metadata_get exercise "body_part" ""];
     difficulty := metadata_get exercise "level" "beginner" |}.

Definition targeted_result (exercise : Exercise) : SearchResult :=
  {| content := default "" (ex_content exercise);
     relevance_score := (1 - distance_or 0.6 exercise)%float;
     source := "chromadb_targeted";
     exercise_type := metadata_get exercise "type" "targeted";
     target_muscles := default [] (ex_muscle_groups exercise);
     difficulty := default "intermediate" (ex_difficulty exercise) |}.

Definition multi_angle_result (angle : string) (exercise : Exercise) : SearchResult :=
  {| content := default "" (ex_content exercise);
     relevance_score := (1 - distance_or 0.55 exercise)%float;
     source := "chromadb_angle_" ++ Py.replace " " "_" angle;
     exercise_type := metadata_get exercise "type" "multi_angle";
     target_muscles := [metadata_get exercise "body_part" ""];
     difficulty := metadata_get exercise "level" "varied" |}.

Definition search_terms (goal : string) : list string :=
  if String.eqb goal "weight_loss"
  then ["cardio"; "fat burning"; "HIIT"; "weight loss exercises"]
  else if String.eqb goal "muscle_gain"
  then ["strength training"; "muscle building"; "hypertrophy"; "resistance"]
  else if String.eqb goal "cardio"
  then ["endurance"; "cardiovascular"; "aerobic"; "cardio training"]
  else if String.eqb goal "strength"
  then ["strength"; "powerlifting"; "resistance training"; "strong"]
  else ["fitness"; "exercise"; "workout"; "training"].

Definition angle_searches (goal : string) : list string :=
  if String.eqb goal "weight_loss"
  then ["beginner weight loss"; "advanced fat burning"; "cardio for weight loss"]
  else if String.eqb goal "muscle_gain"
  then ["beginner muscle building"; "advanced hypertrophy"; "strength for muscle"]
  else if String.eqb goal "cardio"
  then ["running cardio"; "HIIT cardio"; "low intensity cardio"]
  else if String.eqb goal "strength"
  then ["powerlifting"; "bodyweight strength"; "dumbbell strength"]
  else ["beginner fitness"; "intermediate fitness"; "advanced fitness"].

(** The search term of a sub-goal: the chain of [replace] calls. *)
Definition targeted_query (current_sub_goal : string) : string :=
  Py.replace "_" " "
    (Py.replace "discover_" ""
      (Py.replace "locate_" ""
        (Py.replace "identify_" ""
          (Py.replace "find_" "" current_sub_goal)))).

Section Strategies.

Context {St : Type} (search_exercises : SearchCapability St).

(** One pass of [for term in terms: try: ... except Exception: ...]:
    a call that raises contributes nothing and the loop goes on. *)
Definition search_each (convert : string -> Exercise -> SearchResult)
    (terms : list string) (st : St) : list SearchResult * St :=
  fold_left
    (fun '(results, st) term =>
       match search_exercises st term 5%nat with
       | (st', Some exercises) =>
           (results ++ map (convert term) (take 2 exercises), st')
       | (st', None) => (results, st')
       end)
    terms ([], st).

Definition _execute_broad_search (plan : AgentPlan) (user_profile : UserProfile)
    (st : St) : list SearchResult * St :=
  search_each (fun _ => broad_result) (search_terms (primary_goal plan)) st.

Definition _execute_targeted_search (plan : AgentPlan) (user_profile : UserProfile)
    (iteration : nat) (st : St) : list SearchResult * St :=
  if (iteration <? length (sub_goals plan))%nat then
    match sub_goals plan !! iteration with
    | Some current_sub_goal =>
        match search_exercises st (targeted_query current_sub_goal) 5%nat with
        | (st', Some exercises) => (map targeted_result (take 3 exercises), st')
        | (st', None) => ([], st')
        end
    | None => ([], st)
    end
  else ([], st).

Definition _execute_progressive_refinement (plan : AgentPlan)
    (user_profile : UserProfile) (st : St) : list SearchResult * St :=
  _execute_targeted_search plan user_profile 0 st.

Definition _execute_multi_angle_search (plan : AgentPlan) (user_profile : UserProfile)
    (st : St) : list SearchResult * St :=
  search_each multi_angle_result (angle_searches (primary_goal plan)) st.

Definition _execute_strategic_search (strategy : AgentStrategy) (plan : AgentPlan)
    (user_profile : UserProfile) (iteration : nat) (st : St)
  : list SearchResult * St :=
  match strategy with
  | BROAD_SEARCH => _execute_broad_search plan user_profile st
  | TARGETED_SEARCH => _execute_targeted_search plan user_profile iteration st
  | PROGRESSIVE_REFINEMENT => _execute_progressive_refinement plan user_profile st
  | MULTI_ANGLE_APPROACH => _execute_multi_angle_search plan user_profile st
  end.

(** ** The main loop of [generate_recommendation]

    The state carried from one iteration to the next.  [rounds] is a
    ghost history: for every completed round, the round's own results and
    the accumulated sequence right after [search_results.extend]. *)
Record LoopState := {
  search_results : list SearchResult;
  current_strategy : option AgentStrategy;
  successful_strategies : gmap string (list MemoryEntry);
  store : St;
  rounds : list (list SearchResult * list SearchResult)
}.

(** The body of [for iteration in range(self.max_iterations)]; the
    boolean is the [break]. *)
Definition iteration_body (self : Config) (plan : AgentPlan)
    (user_profile : UserProfile) (s : LoopState) (iteration : nat)
  : result (LoopState * bool) :=
  strategy <~ _select_optimal_strategy plan (search_results s) iteration ;;
  let '(iteration_results, st') :=
    _execute_strategic_search strategy plan user_profile iteration (store s) in
  quality_assessment <~
    _assess_result_quality iteration_results plan (search_results s) ;;
  let extended := search_results s ++ iteration_results in
  let s' := {| search_results := extended;
               current_strategy := Some strategy;
               successful_strategies := successful_strategies s;
               store := st';
               rounds := rounds s ++ [(iteration_results, extended)] |} in
  if _should_stop_searching self quality_assessment plan iteration
  then Return (s', true)
  else Return ({| search_results := extended;
                  current_strategy := Some strategy;
                  successful_strategies :=
                    _update_agent_memory (successful_strategies s) strategy
                                         iteration_results quality_assessment;
                  store := st';
                  rounds := rounds s' |}, false).

(** The loop over the iteration indices still to run.  When an iteration
    raises, the exception leaves [generate_recommendation]; the state
    returned with it is the one the iteration started from, whose
    [search_results] the failed iteration has not touched. *)
Fixpoint run_iterations (self : Config) (plan : AgentPlan)
    (user_profile : UserProfile) (iterations : list nat) (s : LoopState)
  : LoopState * option exn :=
  match iterations with
  | [] => (s, None)
  | iteration :: rest =>
      match iteration_body self plan user_profile s iteration with
      | Raise e => (s, Some e)
      | Return (s', true) => (s', None)
      | Return (s', false) => run_iterations self plan user_profile rest s'
      end
  end.

Definition initial_state (memory : gmap string (list MemoryEntry)) (st : St)
  : LoopState :=
  {| search_results := [];
     current_strategy := None;
     successful_strategies := memory;
     store := st;
     rounds := [] |}.

(** [range(self.max_iterations)] is empty for a non-positive bound. *)
Definition agentic_loop (self : Config) (plan : AgentPlan) (user_profile : UserProfile)
    (memory : gmap string (list MemoryEntry)) (st : St) : LoopState * option exn :=
  run_iterations self plan user_profile
    (seq 0 (Z.to_nat (max_iterations self))) (initial_state memory st).

End Strategies.

Arguments LoopState : clear implicits.

(** ** Reflection and the returned payload *)

Record Reflection := {
  planning_effectiveness : bool;
  goal_achievement : bool;
  search_efficiency : float;
  strategy_adaptation : bool
}.

Definition _generate_reflection_insights (plan : AgentPlan)
    (search_results : list SearchResult) : Reflection :=
  {| planning_effectiveness :=
       (Z.of_nat (length search_results) <=? expected_iterations plan)%Z;
     goal_achievement :=
       PrimFloat.leb (Py.of_nat (length (sub_goals plan)) * 0.7)%float
                     (Py.of_nat (Py.distinct (map exercise_type search_results)));
     search_efficiency := average_relevance search_results;
     strategy_adaptation := (1 <? Py.distinct (map source search_results))%nat |}.

(** The fields of the returned dict that this module computes itself.  The
    narrative text comes from the generation capability and is left out. *)
Record Payload := {
  search_results_used : nat;
  agentic_insights : option Reflection;
  agent_plan : AgentPlan;
  iterations_used : nat;
  strategies_employed : list string
}.

Section Controller.

Context {St : Type} (search_exercises : SearchCapability St).

(** [generate_recommendation] after the image analysis of phase 0, whose
    text is the argument [image_analysis]. *)
Definition generate_recommendation (self : Config) (user_data : UserData)
    (image_analysis : string) (memory : gmap string (list MemoryEntry)) (st : St)
  : result Payload :=
  let user_profile := _analyze_user_profile user_data image_analysis in
  let agent_plan := _create_strategic_plan self user_profile in
  match agentic_loop search_exercises self agent_plan user_profile memory st with
  | (_, Some e) => Raise e
  | (s, None) =>
      Return
        {| search_results_used := length (search_results s);
           agentic_insights :=
             if reflection_mode self
             then Some (_generate_reflection_insights agent_plan (search_results s))
             else None;
           agent_plan := agent_plan;
           iterations_used := length (search_results s);
           strategies_employed :=
             match current_strategy s with
             | Some strategy => [value strategy]
             | None => []
             end |}
  end.

End Controller.

(** ** Further profile analysis *)

Definition _parse_health_constraints (health_conditions : string) : list string :=
  (if Py.contains "knee" health_conditions then ["low_impact_preferred"] else [])
  ++ (if Py.contains "back" health_conditions then ["spine_neutral_exercises"] else [])
  ++ (if Py.contains "heart" health_conditions then ["moderate_intensity_only"] else []).

(** The list [equipment] of [_infer_equipment_access] before the final
    [list(set(equipment))]. *)
Definition equipment_detected (image_analysis : string) : list string :=
  let found :=
    match image_analysis with
    | EmptyString => []
    | _ =>
        let analysis_lower := Py.lower image_analysis in
        (if Py.contains "dumbbell" analysis_lower || Py.contains "weight" analysis_lower
         then ["dumbbells"; "free_weights"] else [])
        ++ (if Py.contains "gym" analysis_lower || Py.contains "machine" analysis_lower
            then ["gym_machines"; "cable_machine"] else [])
        ++ (if Py.contains "barbell" analysis_lower then ["barbell"] else [])
        ++ (if Py.contains "resistance band" analysis_lower
               || Py.contains "band" analysis_lower
            then ["resistance_bands"] else [])
        ++ (if Py.contains "kettlebell" analysis_lower then ["kettlebells"] else [])
        ++ (if Py.contains "treadmill" analysis_lower
               || Py.contains "cardio machine" analysis_lower
            then ["cardio_machines"] else [])
    end in
  let equipment := "bodyweight" :: found in
  if (length equipment =? 1)%nat
  then equipment ++ ["dumbbells"; "resistance_bands"]
  else equipment.

(** [list(set(equipment))]: the order of the returned list is that of a
    Python set, so the result is modelled as the set itself. *)
Definition _infer_equipment_access (image_analysis : string) : gset string :=
  list_to_set (equipment_detected image_analysis).

(** ** Final quality metrics *)

Record QualityMetrics := {
  overall_quality : float;
  goal_coverage : float;
  confidence : float
}.

Definition _calculate_final_quality_metrics (results : list SearchResult)
    (plan : AgentPlan) : result QualityMetrics :=
  match results with
  | [] => Return {| overall_quality := 0%float; goal_coverage := 0%float;
                    confidence := 0%float |}
  | _ =>
      let overall_quality :=
        (Py.sum (map relevance_score results) / Py.of_nat (length results))%float in
      match sub_goals plan with
      | [] => Raise ZeroDivisionError
      | _ =>
          let goal_coverage :=
            Py.min (Py.of_nat (Py.distinct (map exercise_type results))
                    / Py.of_nat (length (sub_goals plan)))%float 1%float in
          Return {| overall_quality := overall_quality;
                    goal_coverage := goal_coverage;
                    confidence := (overall_quality * 0.6 + goal_coverage * 0.4)%float |}
      end
  end.

(** ** The vector store's [search_exercises]

    [backend/vector_store.py], as the controller calls it
    ([filters=None]).  The ChromaDB collection is abstract: from its state,
    the query text and [n_results] it yields the next state and either the
    result dict or [None] when [query] raises. *)

(** The result dict of [collection.query]: [documents] and [metadatas] are
    [None] or one list per query text; the key [distances] may be absent
    (outer [None]) or hold [None] (inner [None]). *)
Record QueryResult := {
  qr_documents : option (list (list string));
  qr_metadatas : option (list (list (gmap string string)));
  qr_distances : option (option (list (list float)))
}.

Definition Collection (St : Type) : Type :=
  St -> string -> nat -> St * option QueryResult.

(** [xs[0][i]] on a value that may be [None]; [None] stands for the
    [TypeError] or [IndexError] of the subscript. *)
Definition first_at {A} (xs : option (list (list A))) (i : nat) : option A :=
  match xs with
  | Some (first :: _) => nth_error first i
  | _ => None
  end.

(** The dict built for document [i]; [None] when a subscript raises. *)
Definition format_exercise (results : QueryResult) (i : nat) : option Exercise :=
  match first_at (qr_documents results) i, first_at (qr_metadatas results) i with
  | Some document, Some metadata =>
      match qr_distances results with
      | None =>
          Some {| ex_content := Some document; ex_metadata := Some metadata;
                  ex_distance := None; ex_muscle_groups := None;
                  ex_difficulty := None |}
      | Some distances =>
          match first_at distances i with
          | Some distance =>
              Some {| ex_content := Some document; ex_metadata := Some metadata;
                      ex_distance := Some distance; ex_muscle_groups := None;
                      ex_difficulty := None |}
          | None => None
          end
      end
  | _, _ => None
  end.

(** The [for i in range(len(results['documents'][0]))] loop: the first
    subscript that raises discards everything built so far. *)
Fixpoint format_exercises (results : QueryResult) (indices : list nat)
  : option (list Exercise) :=
  match indices with
  | [] => Some []
  | i :: rest =>
      match format_exercise results i with
      | Some exercise =>
          match format_exercises results rest with
          | Some exercises => Some (exercise :: exercises)
          | None => None
          end
      | None => None
      end
  end.

(** [VectorStore.search_exercises(query, None, top_k)]: every exception is
    caught by the outer [try] and answered with the empty list. *)
Definition store_search_exercises {St} (query_collection : Collection St)
  : SearchCapability St :=
  fun st query top_k =>
    match query_collection st query top_k with
    | (st', None) => (st', Some [])
    | (st', Some results) =>
        (st',
         Some match qr_documents results with
              | Some (first :: _) =>
                  match first with
                  | [] => []
                  | _ => default [] (format_exercises results (seq 0 (length first)))
                  end
              | _ => []
              end)
    end.

(** * Definitions used by the properties

    Ghost views of the state, the behaviour as the specification words it
    (names starting with [claimed_]), and the concrete requests, plans,
    results and search capabilities of the scenarios. *)

(** ** Views of the agent memory *)

(** [xs[-n:]] for a list longer than [n], and the whole list otherwise. *)
Definition last_n {A} (n : nat) (xs : list A) : list A :=
  drop (length xs - n) xs.

Definition entry_of (results : list SearchResult) (quality : QualityAssessment)
  : MemoryEntry :=
  {| quality_score := overall_score quality;
     result_count := length results;
     timestamp := "current" |}.

Definition RecordCall : Type := AgentStrategy * list SearchResult * QualityAssessment.

(** A sequence of [_update_agent_memory] calls on one controller. *)
Definition record_all (calls : list RecordCall)
    (memory : gmap string (list MemoryEntry)) : gmap string (list MemoryEntry) :=
  fold_left (fun m '(strategy, results, quality) =>
               _update_agent_memory m strategy results quality)
            calls memory.

(** The entries recorded under [key], oldest first. *)
Fixpoint recorded (key : string) (calls : list RecordCall) : list MemoryEntry :=
  match calls with
  | [] => []
  | (strategy, results, quality) :: rest =>
      if String.eqb (value strategy) key
      then entry_of results quality :: recorded key rest
      else recorded key rest
  end.

Definition stored (memory : gmap string (list MemoryEntry)) (key : string)
  : list MemoryEntry :=
  default [] (memory !! key).

(** ** Ghost history of the loop *)

(** Every recorded round extends the sequence accumulated before it by
    that round's results and changes nothing else. *)
Fixpoint appends_only (before : list SearchResult)
    (history : list (list SearchResult * list SearchResult)) : Prop :=
  match history with
  | [] => True
  | (new, after) :: rest => after = before ++ new /\ appends_only after rest
  end.

(** The accumulated sequence after the last recorded round. *)
Definition accumulated (before : list SearchResult)
    (history : list (list SearchResult * list SearchResult)) : list SearchResult :=
  fold_left (fun _ round => snd round) history before.

(** The ghost history agrees with the accumulated sequence. *)
Definition history_ok {St} (s : LoopState St) : Prop :=
  appends_only [] (rounds s) /\ search_results s = accumulated [] (rounds s).

(** The number of results each completed round returned. *)
Definition round_counts {St} (s : LoopState St) : list nat :=
  map (fun round => length (fst round)) (rounds s).

(** ** Strategy selection *)

(** The test of [_results_lack_specificity] on a result: its exercise
    type, lower-cased, contains one of the generic terms. *)
Definition generic (r : SearchResult) : Prop :=
  Py.any_in general_terms (Py.lower (exercise_type r)) = true.

(** The comparison [count > n * 0.7] of the source against the exact
    "more than 70%", for all counts up to [n]. *)
Definition threshold_exact_upto (n : nat) : bool :=
  forallb (fun c => Bool.eqb (PrimFloat.ltb (Py.of_nat n * 0.7)%float (Py.of_nat c))
                             (7 * n <? 10 * c)%nat)
          (seq 0 (S n)).

(** The selector as the specification words it: the generic terms are looked for
    in the exercise type as it is, and "more than 70%" is exact. *)
Definition claimed_lack_specificity (results : list SearchResult) : bool :=
  (7 * length results
   <? 10 * length (filter (fun r => Py.any_in general_terms (exercise_type r) = true)
                          results))%nat.

Definition claimed_select_optimal_strategy (plan : AgentPlan)
    (current_results : list SearchResult) (iteration : nat) : result AgentStrategy :=
  if (iteration =? 0)%nat then Return BROAD_SEARCH
  else if (length current_results <? 3)%nat then Return MULTI_ANGLE_APPROACH
  else if claimed_lack_specificity current_results then Return TARGETED_SEARCH
  else if _results_need_refinement current_results then Return PROGRESSIVE_REFINEMENT
  else cyclic_index (search_strategies plan) iteration.

(** ** Targeted search *)

(** The query as the specification words it: the verb prefix is stripped, then
    underscores become spaces. *)
Definition strip_verb_prefix (sub_goal : string) : string :=
  let strip prefix rest :=
    if String.prefix prefix sub_goal
    then String.substring (String.length prefix)
                          (String.length sub_goal - String.length prefix) sub_goal
    else rest in
  strip "find_" (strip "identify_" (strip "locate_" (strip "discover_" sub_goal))).

Definition claimed_targeted_query (sub_goal : string) : string :=
  Py.replace "_" " " (strip_verb_prefix sub_goal).

(** The targeted search as the specification words it: an out-of-range iteration
    falls back to the sub-goal at index 0. *)
Definition claimed_execute_targeted_search {St} (search_exercises : SearchCapability St)
    (plan : AgentPlan) (iteration : nat) (st : St) : list SearchResult * St :=
  let index := if (iteration <? length (sub_goals plan))%nat then iteration else 0%nat in
  match sub_goals plan !! index with
  | Some sub_goal =>
      match search_exercises st (claimed_targeted_query sub_goal) 5%nat with
      | (st', Some exercises) => (map targeted_result (take 3 exercises), st')
      | (st', None) => ([], st')
      end
  | None => ([], st)
  end.

(** Every sub-goal the planner can put in a plan. *)
Definition planner_sub_goals : list string :=
  ["find_high_intensity_cardio"; "identify_calorie_burning_exercises";
   "locate_nutrition_guidance"; "discover_progression_strategies";
   "address_form_corrections"; "utilize_available_equipment";
   "find_progressive_strength_exercises"; "identify_muscle_building_protocols";
   "locate_nutrition_for_growth"; "discover_recovery_strategies";
   "target_specific_muscle_groups"; "address_postural_corrections";
   "find_endurance_training_methods"; "identify_cardio_progressions";
   "locate_heart_rate_guidance"; "discover_training_variations";
   "adjust_intensity_for_level"; "optimize_available_equipment";
   "find_foundational_exercises"; "identify_balanced_routines";
   "locate_beginner_progressions"; "discover_safety_guidelines";
   "improve_exercise_form"; "address_mobility_limitations";
   "adapt_for_equipment_constraints"].

(** ** Relevance scores *)

Definition default_distance (strategy : AgentStrategy) : float :=
  match strategy with
  | BROAD_SEARCH => 0.5%float
  | TARGETED_SEARCH => 0.6%float
  | PROGRESSIVE_REFINEMENT => 0.6%float
  | MULTI_ANGLE_APPROACH => 0.55%float
  end.

Definition in_unit_interval (x : float) : bool :=
  PrimFloat.leb 0%float x && PrimFloat.leb x 1%float.

(** Every strategy computes the relevance from the hit in the same way. *)
Definition relevance_from (strategy : AgentStrategy) (exercise : Exercise)
    (r : SearchResult) : Prop :=
  relevance_score r = (1 - distance_or (default_distance strategy) exercise)%float.

(** [exercise] is among the hits of some call of the capability. *)
Definition returned_hit {St} (search_exercises : SearchCapability St)
    (exercise : Exercise) : Prop :=
  exists st query st' exercises,
    search_exercises st query 5%nat = (st', Some exercises)
    /\ In exercise exercises.

(** [r] was made from a returned hit by the relevance rule of [strategy]. *)
Definition from_returned_hit {St} (search_exercises : SearchCapability St)
    (strategy : AgentStrategy) (r : SearchResult) : Prop :=
  exists exercise,
    returned_hit search_exercises exercise /\ relevance_from strategy exercise r.

(** ** Fitness level *)

(** The inference as the specification words it: two keyword pairs, then the age
    bands. *)
Definition claimed_infer_fitness_level (user_data : UserData) (image_analysis : string)
  : string :=
  let age := default 30 (age user_data) in
  if Py.contains "advanced" image_analysis || Py.contains "athletic" image_analysis
  then "advanced"
  else if Py.contains "beginner" image_analysis || Py.contains "sedentary" image_analysis
  then "beginner"
  else if (age <? 25)%Z then "beginner_to_intermediate"
  else if (50 <? age)%Z then "experienced_but_cautious"
  else "intermediate".

(** [image_analysis], lower-cased, contains one of [keywords]. *)
Definition mentions (keywords : list string) (image_analysis : string) : bool :=
  Py.any_in keywords (Py.lower image_analysis).

(** ** Reading a field of the outcome of [generate_recommendation] *)

Definition planning_effectiveness_of (outcome : result Payload) : option bool :=
  match outcome with
  | Return payload => planning_effectiveness <$> agentic_insights payload
  | Raise _ => None
  end.

Definition iterations_used_of (outcome : result Payload) : option nat :=
  match outcome with
  | Return payload => Some (iterations_used payload)
  | Raise _ => None
  end.

(** ** Concrete requests, plans and results *)

Definition default_config : Config :=
  {| max_iterations := 3; reflection_mode := true |}.

Definition user_aged (years : Z) : UserData :=
  {| age := Some years; agent_type := Some "cardio" |}.

Definition some_profile : UserProfile :=
  {| profile_primary_goal := "cardio"; fitness_level := "intermediate";
     visual_assessment := ∅; image_analysis := "" |}.

Definition cardio_plan : AgentPlan :=
  {| primary_goal := "cardio";
     sub_goals := ["find_endurance_training_methods"; "identify_cardio_progressions";
                   "locate_heart_rate_guidance"; "discover_training_variations"];
     search_strategies := [BROAD_SEARCH; MULTI_ANGLE_APPROACH];
     expected_iterations := 3;
     success_criteria := success_criteria_default |}.

Definition result_of_type (type : string) : SearchResult :=
  {| content := "Exercise"; relevance_score := 0.9%float; source := "chromadb";
     exercise_type := type; target_muscles := ["Chest"]; difficulty := "Intermediate" |}.

Definition moderate_result : SearchResult :=
  {| content := "Exercise"; relevance_score := 0.5%float; source := "chromadb";
     exercise_type := "Strength"; target_muscles := ["Chest"];
     difficulty := "Intermediate" |}.

(** Three results whose type is capitalised, as the data set writes it. *)
Definition capitalised_results : list SearchResult :=
  repeat (result_of_type "General Fitness") 3.

(** Ninety results of which exactly 70% are generic. *)
Definition seventy_percent_results : list SearchResult :=
  repeat (result_of_type "general") 63 ++ repeat (result_of_type "strength") 27.

(** ** Concrete search capabilities *)

Definition hit (type : string) (distance : option float) : Exercise :=
  {| ex_content := Some "Exercise: Push-up";
     ex_metadata := Some (<[ "type" := type ]> ∅);
     ex_distance := distance;
     ex_muscle_groups := None;
     ex_difficulty := None |}.

(** A store that logs the queries it receives and answers each with one
    hit at distance 0.25. *)
Definition logging_search : SearchCapability (list string) :=
  fun log query top_k => (log ++ [query], Some [hit "Strength" (Some 0.25%float)]).

(** A store that answers every query with two hits at distance 1.5. *)
Definition far_search : SearchCapability unit :=
  fun st query top_k =>
    (st, Some [hit "Strength" (Some 1.5%float); hit "Cardio" (Some 1.5%float)]).

(** A store that answers every query with two close hits typed by the
    query. *)
Definition rich_search : SearchCapability unit :=
  fun st query top_k =>
    (st, Some [hit query (Some 0.1%float); hit query (Some 0.1%float)]).

(** A store that answers its first query with two distant hits and every
    later query with no hit. *)
Definition first_only_search : SearchCapability nat :=
  fun calls query top_k =>
    (S calls,
     Some (if (calls =? 0)%nat
           then [hit "Cardio" (Some 0.9%float); hit "Cardio" (Some 0.9%float)]
           else [])).

(** A store whose every call raises. *)
Definition failing_search : SearchCapability unit :=
  fun st query top_k => (st, None).

(** A store that answers every query with hits carrying no distance. *)
Definition undistanced_search : SearchCapability unit :=
  fun st query top_k => (st, Some [hit "Strength" None]).

(** ** Further definitions: vocabulary and instrumentation *)

(** The tags [_parse_health_constraints] can produce, in its order. *)
Definition constraint_vocabulary : list string :=
  ["low_impact_preferred"; "spine_neutral_exercises"; "moderate_intensity_only"].

(** A capability that also records the queries it receives, in order. *)
Definition logged {St} (search_exercises : SearchCapability St)
  : SearchCapability (St * list string) :=
  fun '(st, log) query top_k =>
    let '(st', answer) := search_exercises st query top_k in
    ((st', log ++ [query]), answer).

(** The queries a strategy issues: they depend on the plan and the
    iteration only. *)
Definition strategy_queries (strategy : AgentStrategy) (plan : AgentPlan)
    (iteration : nat) : list string :=
  match strategy with
  | BROAD_SEARCH => search_terms (primary_goal plan)
  | TARGETED_SEARCH =>
      match sub_goals plan !! iteration with
      | Some sub_goal => [targeted_query sub_goal]
      | None => []
      end
  | PROGRESSIVE_REFINEMENT =>
      match sub_goals plan !! 0%nat with
      | Some sub_goal => [targeted_query sub_goal]
      | None => []
      end
  | MULTI_ANGLE_APPROACH => angle_searches (primary_goal plan)
  end.

(** A capability that never yields a hit: every call raises or returns an
    empty list. *)
Definition yields_no_hit {St} (search_exercises : SearchCapability St) : Prop :=
  forall st query top_k,
    snd (search_exercises st query top_k) = None
    \/ snd (search_exercises st query top_k) = Some [].

(** The keywords [_infer_equipment_access] looks for. *)
Definition equipment_keywords : list string :=
  ["dumbbell"; "weight"; "gym"; "machine"; "barbell"; "resistance band"; "band";
   "kettlebell"; "treadmill"; "cardio machine"].

(** The equipment names other than "bodyweight". *)
Definition equipment_vocabulary : list string :=
  ["dumbbells"; "free_weights"; "gym_machines"; "cable_machine"; "barbell";
   "resistance_bands"; "kettlebells"; "cardio_machines"].

(** The largest number of results a strategy can return in one round. *)
Definition max_results (strategy : AgentStrategy) : nat :=
  match strategy with
  | BROAD_SEARCH => 8
  | TARGETED_SEARCH => 3
  | PROGRESSIVE_REFINEMENT => 3
  | MULTI_ANGLE_APPROACH => 6
  end.

(** The concrete strategy keys of the agent memory. *)
Definition strategy_keys : list string :=
  map value [BROAD_SEARCH; TARGETED_SEARCH; PROGRESSIVE_REFINEMENT; MULTI_ANGLE_APPROACH].

(** Every window of the memory is within the bound of ten entries. *)
Definition windows_bounded (memory : gmap string (list MemoryEntry)) : Prop :=
  forall key, (length (stored memory key) <= 10)%nat.

(** * Properties *)

(** ** Stopping policy *)

(** C2. The stopping decision is true exactly when the assessment meets
    the criteria, or the iteration is the last allowed one
    ([iteration >= max_iterations - 1]), or the overall score is at least
    0.9; with an overall score of 0.95 it is true for every iteration index
    and every value of [meets_criteria]. *)
Theorem should_stop_searching_iff :
  (forall (self : Config) (q : QualityAssessment) (plan : AgentPlan) (iteration : nat),
      _should_stop_searching self q plan iteration = true
      <-> (get_meets_criteria q = true
           \/ (max_iterations self - 1 <= Z.of_nat iteration)%Z
           \/ PrimFloat.leb 0.9%float (overall_score q) = true))
  /\ (forall (self : Config) (plan : AgentPlan) (iteration : nat)
             (rel cov div : float) (meets : option bool),
         _should_stop_searching self
           {| overall_score := 0.95%float; relevance := rel; coverage := cov;
              diversity := div; meets_criteria := meets |}
           plan iteration = true).
Proof.
  split.
  - intros self q plan iteration. unfold _should_stop_searching.
    destruct (get_meets_criteria q); [ tauto | ].
    destruct (Z.leb_spec (max_iterations self - 1) (Z.of_nat iteration));
      [ tauto | ].
    destruct (PrimFloat.leb 0.9 (overall_score q)); [ tauto | ].
    split; [ discriminate | ].
    intros [H1 | [H1 | H1]]; [ discriminate | lia | discriminate ].
  - intros self plan iteration rel cov div meets. unfold _should_stop_searching.
    cbn [overall_score].
    destruct (get_meets_criteria _); [ reflexivity | ].
    destruct (_ <=? _)%Z; reflexivity.
Qed.

(** ** Quality assessment *)

(** C4. On an empty list of new results the assessment has all four scores
    equal to 0.0 and its [meets_criteria], read as the stopping policy
    reads it (a missing key counts as false), is false; no plan and no
    cumulative result set makes the call raise. *)
Theorem assess_result_quality_empty :
  forall (plan : AgentPlan) (all_results : list SearchResult),
  exists q,
    _assess_result_quality [] plan all_results = Return q
    /\ overall_score q = 0%float
    /\ relevance q = 0%float
    /\ coverage q = 0%float
    /\ diversity q = 0%float
    /\ get_meets_criteria q = false.
Proof.
  intros plan all_results. eexists. split; [ reflexivity | ].
  repeat split.
Qed.

(** ** Agent memory *)

Lemma last_n_length {A} (n : nat) (xs : list A) :
  (length (last_n n xs) <= n)%nat.
Proof. unfold last_n. rewrite length_drop. lia. Qed.

Lemma last_n_short {A} (n : nat) (xs : list A) :
  (length xs <= n)%nat -> last_n n xs = xs.
Proof.
  intros H. unfold last_n. replace (length xs - n)%nat with 0%nat by lia.
  reflexivity.
Qed.

Lemma last_n_app_absorb {A} (n : nat) (xs ys : list A) :
  last_n n (last_n n xs ++ ys) = last_n n (xs ++ ys).
Proof.
  unfold last_n. rewrite !length_app, length_drop.
  destruct (Nat.le_gt_cases (length xs) n) as [Hle | Hgt].
  - replace (length xs - n)%nat with 0%nat by lia. cbn [drop].
    f_equal. lia.
  - destruct (Nat.le_gt_cases n (length ys)) as [Hys | Hys].
    + rewrite !drop_app_ge by (rewrite ?length_drop; lia).
      rewrite length_drop. f_equal. lia.
    + rewrite !drop_app_le by (rewrite ?length_drop; lia).
      rewrite drop_drop. f_equal. f_equal. lia.
Qed.

Lemma update_agent_memory_stored memory strategy results quality key :
  stored (_update_agent_memory memory strategy results quality) key
  = if String.eqb (value strategy) key
    then last_n 10 (stored memory key ++ [entry_of results quality])
    else stored memory key.
Proof.
  unfold _update_agent_memory, stored. fold (entry_of results quality).
  destruct (String.eqb_spec (value strategy) key) as [-> | Hne].
  - set (m1 := match memory !! key with
               | Some _ => memory
               | None => <[key:=[]]> memory
               end).
    assert (Hm1 : default [] (m1 !! key) = default [] (memory !! key)).
    { subst m1. destruct (memory !! key) as [l|] eqn:E.
      - rewrite E. reflexivity.
      - rewrite lookup_insert_eq. reflexivity. }
    rewrite Hm1.
    set (entries := default [] (memory !! key) ++ [entry_of results quality]).
    destruct (Nat.ltb_spec 10 (length entries)) as [Hlong | Hshort].
    + rewrite lookup_insert_eq. reflexivity.
    + rewrite lookup_insert_eq. cbn [default]. symmetry.
      apply last_n_short. exact Hshort.
  - set (k := value strategy) in *.
    set (m1 := match memory !! k with
               | Some _ => memory
               | None => <[k:=[]]> memory
               end).
    assert (Hm1 : m1 !! key = memory !! key).
    { subst m1. destruct (memory !! k); [ reflexivity | ].
      rewrite lookup_insert_ne by assumption. reflexivity. }
    destruct (_ <? _)%nat; rewrite ?lookup_insert_ne by assumption;
      rewrite Hm1; reflexivity.
Qed.

(** The sliding window as an invariant of any call sequence, from any
    memory whose windows are within the bound. *)
Lemma record_all_stored calls :
  forall memory key,
    (length (stored memory key) <= 10)%nat ->
    stored (record_all calls memory) key
    = last_n 10 (stored memory key ++ recorded key calls).
Proof.
  induction calls as [| [[strategy results] quality] rest IH];
    intros memory key Hlen.
  - cbn. rewrite app_nil_r. symmetry. apply last_n_short. exact Hlen.
  - cbn [record_all fold_left recorded].
    fold (record_all rest (_update_agent_memory memory strategy results quality)).
    rewrite IH; rewrite update_agent_memory_stored.
    + destruct (String.eqb (value strategy) key).
      * rewrite last_n_app_absorb, <- app_assoc. reflexivity.
      * reflexivity.
    + destruct (String.eqb (value strategy) key);
        [ apply last_n_length | exact Hlen ].
Qed.

Lemma stored_empty key : stored ∅ key = [].
Proof. unfold stored. rewrite lookup_empty. reflexivity. Qed.

Lemma recorded_same_strategy {I} strategy
    (call : I -> list SearchResult * QualityAssessment) (indices : list I) :
  recorded (value strategy)
           (map (fun i => (strategy, fst (call i), snd (call i))) indices)
  = map (fun i => entry_of (fst (call i)) (snd (call i))) indices.
Proof.
  induction indices as [| i rest IH]; [ reflexivity | ].
  cbn [map recorded]. rewrite String.eqb_refl, IH. reflexivity.
Qed.

Lemma last_10_of_15 {A} (h : nat -> A) :
  last_n 10 (map h (seq 0 15)) = map h (seq 5 10).
Proof. reflexivity. Qed.

Lemma stored_lookup (m : gmap string (list MemoryEntry)) key e l :
  stored m key = e :: l -> m !! key = Some (e :: l).
Proof.
  unfold stored. destruct (m !! key); cbn; [ congruence | discriminate ].
Qed.

(** C7. Starting from the empty memory of a new controller, after any
    sequence of record calls every strategy key holds at most 10 entries,
    and they are exactly the 10 most recently recorded for that key, in
    insertion order; after 15 records under one key the oldest 5 are gone
    and the newest 10 remain in order. *)
Theorem agent_memory_sliding_window :
  (forall (calls : list RecordCall) (key : string),
      (length (stored (record_all calls ∅) key) <= 10)%nat
      /\ stored (record_all calls ∅) key = last_n 10 (recorded key calls))
  /\ (forall (strategy : AgentStrategy)
             (call : nat -> list SearchResult * QualityAssessment),
         record_all (map (fun i => (strategy, fst (call i), snd (call i))) (seq 0 15)) ∅
           !! value strategy
         = Some (map (fun i => entry_of (fst (call i)) (snd (call i))) (seq 5 10))).
Proof.
  split.
  - intros calls key.
    assert (H : stored (record_all calls ∅) key = last_n 10 (recorded key calls)).
    { rewrite record_all_stored; rewrite stored_empty;
        [ reflexivity | apply Nat.le_0_l ]. }
    split; [ rewrite H; apply last_n_length | exact H ].
  - intros strategy call.
    apply stored_lookup.
    rewrite record_all_stored by (rewrite stored_empty; apply Nat.le_0_l).
    rewrite stored_empty, recorded_same_strategy, app_nil_l.
    apply last_10_of_15.
Qed.

(** ** The loop: bounded, append-only *)

Lemma appends_only_snoc history : forall before new after,
  appends_only before history ->
  after = accumulated before history ++ new ->
  appends_only before (history ++ [(new, after)]).
Proof.
  induction history as [| [new0 after0] rest IH]; intros before new after Hh Ha.
  - cbn in *. split; [ exact Ha | exact I ].
  - cbn in *. destruct Hh as [H0 Hrest]. split; [ exact H0 | ].
    apply IH; assumption.
Qed.

Lemma accumulated_snoc history before new after :
  accumulated before (history ++ [(new, after)]) = after.
Proof. unfold accumulated. rewrite fold_left_app. reflexivity. Qed.

Lemma appends_only_concat history : forall before,
  appends_only before history ->
  accumulated before history = before ++ concat (map fst history).
Proof.
  induction history as [| [new after] rest IH]; intros before Hh.
  - cbn. rewrite app_nil_r. reflexivity.
  - cbn in *. destruct Hh as [-> Hrest].
    change (fold_left _ rest (before ++ new)) with (accumulated (before ++ new) rest).
    rewrite (IH _ Hrest), <- app_assoc. reflexivity.
Qed.

Section LoopInvariant.

Context {St : Type} (search_exercises : SearchCapability St).
Context (self : Config) (plan : AgentPlan) (user_profile : UserProfile).

(** One completed iteration appends its results, whether or not it
    breaks out of the loop. *)
Lemma iteration_body_appends s iteration s' stop :
  iteration_body search_exercises self plan user_profile s iteration
  = Return (s', stop) ->
  exists new,
    search_results s' = search_results s ++ new
    /\ rounds s' = rounds s ++ [(new, search_results s ++ new)].
Proof.
  unfold iteration_body, bind.
  destruct (_select_optimal_strategy plan (search_results s) iteration)
    as [strategy | e]; [ | discriminate ].
  destruct (_execute_strategic_search search_exercises strategy plan user_profile
              iteration (store s)) as [iteration_results st'].
  destruct (_assess_result_quality iteration_results plan (search_results s))
    as [q | e]; [ | discriminate ].
  destruct (_should_stop_searching self q plan iteration);
    intros [= <- <-]; exists iteration_results; split; reflexivity.
Qed.

Lemma iteration_body_history s iteration s' stop :
  iteration_body search_exercises self plan user_profile s iteration
  = Return (s', stop) ->
  history_ok s ->
  history_ok s' /\ length (rounds s') = S (length (rounds s)).
Proof.
  intros Hbody [Hhist Hacc].
  destruct (iteration_body_appends _ _ _ _ Hbody) as (new & Hres & Hrounds).
  rewrite Hacc in Hrounds. unfold history_ok. rewrite Hrounds, Hres, Hacc.
  repeat split.
  - apply appends_only_snoc; [ exact Hhist | reflexivity ].
  - rewrite accumulated_snoc. reflexivity.
  - rewrite length_app. cbn. lia.
Qed.

Lemma run_iterations_history iterations : forall s,
  history_ok s ->
  let final := fst (run_iterations search_exercises self plan user_profile
                                   iterations s) in
  history_ok final
  /\ (length (rounds final) <= length (rounds s) + length iterations)%nat.
Proof.
  induction iterations as [| iteration rest IH]; intros s Hs; cbn zeta.
  - cbn. split; [ exact Hs | lia ].
  - cbn [run_iterations].
    destruct (iteration_body search_exercises self plan user_profile s iteration)
      as [[s' [|]] | e] eqn:Hbody.
    + destruct (iteration_body_history _ _ _ _ Hbody Hs) as [Hs' Hlen].
      cbn [fst length]. split; [ exact Hs' | lia ].
    + destruct (iteration_body_history _ _ _ _ Hbody Hs) as [Hs' Hlen].
      destruct (IH s' Hs') as [Hfinal Hbound].
      split; [ exact Hfinal | ]. cbn [length]. lia.
    + cbn. split; [ exact Hs | lia ].
Qed.

End LoopInvariant.

(** The invariant at the end of [agentic_loop]. *)
Lemma agentic_loop_history {St} (search_exercises : SearchCapability St)
    self plan user_profile memory st :
  let final := fst (agentic_loop search_exercises self plan user_profile memory st) in
  history_ok final
  /\ (length (rounds final) <= Z.to_nat (max_iterations self))%nat.
Proof.
  cbn zeta. unfold agentic_loop.
  destruct (run_iterations_history search_exercises self plan user_profile
              (seq 0 (Z.to_nat (max_iterations self))) (initial_state memory st))
    as [Hok Hbound].
  { split; [ exact I | reflexivity ]. }
  split; [ exact Hok | ].
  rewrite length_seq in Hbound. exact Hbound.
Qed.

Lemma history_ok_concat {St} (s : LoopState St) :
  history_ok s -> search_results s = concat (map fst (rounds s)).
Proof.
  intros [Hhist Hacc]. rewrite Hacc. apply (appends_only_concat _ [] Hhist).
Qed.

Lemma history_ok_sum {St} (s : LoopState St) :
  history_ok s -> length (search_results s) = list_sum (round_counts s).
Proof.
  intros Hok. rewrite (history_ok_concat s Hok), length_concat.
  unfold round_counts. rewrite map_map. reflexivity.
Qed.

(** C1. For every configuration, plan, profile, memory and search
    capability (whatever it answers, including always empty and always
    raising), the main loop completes at most [max_iterations] rounds;
    every round only appends its results to the accumulated sequence; and
    at the end the accumulated sequence is the concatenation of the rounds'
    results, so its length is the sum of the per-round counts. *)
Theorem agentic_loop_bounded_append_only :
  forall (St : Type) (search_exercises : SearchCapability St)
         (self : Config) (plan : AgentPlan) (user_profile : UserProfile)
         (memory : gmap string (list MemoryEntry)) (st : St),
    let final := fst (agentic_loop search_exercises self plan user_profile memory st) in
    (length (rounds final) <= Z.to_nat (max_iterations self))%nat
    /\ appends_only [] (rounds final)
    /\ search_results final = concat (map fst (rounds final))
    /\ length (search_results final) = list_sum (round_counts final).
Proof.
  intros St search_exercises self plan user_profile memory st final.
  destruct (agentic_loop_history search_exercises self plan user_profile memory st)
    as [Hok Hbound].
  fold final in Hok, Hbound.
  split; [ exact Hbound | ]. split; [ exact (proj1 Hok) | ].
  split; [ apply history_ok_concat | apply history_ok_sum ]; exact Hok.
Qed.

(** ** Strategy selection *)

Lemma general_count_le results : (general_count results <= length results)%nat.
Proof. unfold general_count. apply length_filter. Qed.

Lemma threshold_exact_below_90 :
  forallb threshold_exact_upto (seq 0 90) = true.
Proof. vm_compute. reflexivity. Qed.

(** Below 90 results the floating-point threshold is the exact one. *)
Lemma lack_specificity_exact results :
  (length results < 90)%nat ->
  _results_lack_specificity results = true
  <-> (7 * length results < 10 * general_count results)%nat.
Proof.
  intros Hlen. unfold _results_lack_specificity.
  pose proof threshold_exact_below_90 as H.
  rewrite forallb_forall in H.
  specialize (H (length results)).
  assert (Hin : In (length results) (seq 0 90)) by (apply in_seq; lia).
  specialize (H Hin). unfold threshold_exact_upto in H.
  rewrite forallb_forall in H.
  specialize (H (general_count results)).
  assert (Hin' : In (general_count results) (seq 0 (S (length results)))).
  { apply in_seq. pose proof (general_count_le results). lia. }
  specialize (H Hin'). apply Bool.eqb_prop in H. rewrite H.
  apply Nat.ltb_lt.
Qed.

(** C3, as stated, fails.  With three results of type "General Fitness"
    no exercise type contains a generic term as written, yet the code,
    which lower-cases the type first, answers TargetedSearch where the
    claimed order reaches the cyclic fallback (MultiAngleApproach).  With
    ninety results of which exactly sixty-three are generic, not more than
    70% are generic, yet [63 > 90 * 0.7] holds in binary64 (the product is
    62.99999999999999) and the code again answers TargetedSearch. *)
Lemma select_optimal_strategy_not_as_claimed :
  (_select_optimal_strategy cardio_plan capitalised_results 1
   = Return TARGETED_SEARCH
   /\ claimed_select_optimal_strategy cardio_plan capitalised_results 1
      = Return MULTI_ANGLE_APPROACH)
  /\ (_select_optimal_strategy cardio_plan seventy_percent_results 1
      = Return TARGETED_SEARCH
      /\ claimed_select_optimal_strategy cardio_plan seventy_percent_results 1
         = Return MULTI_ANGLE_APPROACH).
Proof. repeat split; vm_compute; reflexivity. Qed.

(** C3, amended.  The selector is a function of (plan, results,
    iteration) with this first-match order: (1) iteration 0 gives
    BroadSearch; (2) fewer than 3 results give MultiAngleApproach; (3) if
    the number of results whose lower-cased exercise type contains one of
    general/basic/beginner/simple is greater than [len(results) * 0.7]
    computed in floating point (below 90 results: exactly when more than
    70% of them are generic), TargetedSearch; (4) if the floating-point
    average relevance is strictly between 0.4 and 0.7,
    ProgressiveRefinement; (5) otherwise the plan's strategy at index
    [iteration mod len(search_strategies)], which raises
    ZeroDivisionError when the plan has no strategy. *)
Theorem select_optimal_strategy_priority :
  forall (plan : AgentPlan) (results : list SearchResult) (iteration : nat),
    let n := length results in
    let generic_share_high :=
      PrimFloat.ltb (Py.of_nat n * 0.7)%float
                    (Py.of_nat (length (filter generic results))) = true in
    let average_moderate :=
      PrimFloat.ltb 0.4%float (average_relevance results) = true
      /\ PrimFloat.ltb (average_relevance results) 0.7%float = true in
    (iteration = 0%nat ->
       _select_optimal_strategy plan results iteration = Return BROAD_SEARCH)
    /\ (iteration <> 0%nat -> (n < 3)%nat ->
          _select_optimal_strategy plan results iteration = Return MULTI_ANGLE_APPROACH)
    /\ (iteration <> 0%nat -> (3 <= n)%nat -> generic_share_high ->
          _select_optimal_strategy plan results iteration = Return TARGETED_SEARCH)
    /\ (iteration <> 0%nat -> (3 <= n)%nat -> ~ generic_share_high -> average_moderate ->
          _select_optimal_strategy plan results iteration = Return PROGRESSIVE_REFINEMENT)
    /\ (iteration <> 0%nat -> (3 <= n)%nat -> ~ generic_share_high -> ~ average_moderate ->
          _select_optimal_strategy plan results iteration
          = match search_strategies plan !! (iteration mod length (search_strategies plan))%nat with
            | Some strategy => Return strategy
            | None => Raise ZeroDivisionError
            end)
    /\ ((n < 90)%nat ->
          (generic_share_high <-> (7 * n < 10 * length (filter generic results))%nat)).
Proof.
  intros plan results iteration n generic_share_high average_moderate.
  subst n generic_share_high average_moderate.
  change (length (filter generic results)) with (general_count results).
  unfold _select_optimal_strategy.
  fold (_results_lack_specificity results).
  assert (Hneed : _results_need_refinement results = true
                  <-> PrimFloat.ltb 0.4 (average_relevance results) = true
                      /\ PrimFloat.ltb (average_relevance results) 0.7 = true).
  { unfold _results_need_refinement. cbn zeta. apply andb_true_iff. }
  repeat split.
  - intros ->. reflexivity.
  - intros Hi Hn. apply Nat.eqb_neq in Hi. rewrite Hi.
    apply Nat.ltb_lt in Hn. rewrite Hn. reflexivity.
  - intros Hi Hn Hg. apply Nat.eqb_neq in Hi. rewrite Hi.
    apply Nat.ltb_ge in Hn. rewrite Hn, Hg. reflexivity.
  - intros Hi Hn Hg Ha. apply Nat.eqb_neq in Hi. rewrite Hi.
    apply Nat.ltb_ge in Hn. rewrite Hn.
    apply not_true_is_false in Hg. rewrite Hg.
    apply Hneed in Ha. rewrite Ha. reflexivity.
  - intros Hi Hn Hg Ha. apply Nat.eqb_neq in Hi. rewrite Hi.
    apply Nat.ltb_ge in Hn. rewrite Hn.
    apply not_true_is_false in Hg. rewrite Hg.
    rewrite <- Hneed in Ha. apply not_true_is_false in Ha. rewrite Ha.
    unfold cyclic_index.
    destruct (search_strategies plan) as [| s0 rest] eqn:Hs; [ reflexivity | ].
    assert (Hlt : (iteration mod length (s0 :: rest) < length (s0 :: rest))%nat)
      by (apply Nat.mod_upper_bound; discriminate).
    destruct (lookup_lt_is_Some_2 (s0 :: rest) _ Hlt) as [s Hlook].
    rewrite Hlook. f_equal. apply nth_lookup_Some with (d := s0) in Hlook.
    exact Hlook.
  - intros Hg. apply lack_specificity_exact; assumption.
  - intros Hg. apply lack_specificity_exact; assumption.
Qed.

(** ** Targeted search *)

Lemma create_strategic_plan_sub_goals self user_profile :
  forallb (fun g => existsb (String.eqb g) planner_sub_goals)
          (sub_goals (_create_strategic_plan self user_profile)) = true.
Proof.
  unfold _create_strategic_plan, append_if.
  destruct (String.eqb (profile_primary_goal user_profile) "weight_loss");
    [ | destruct (String.eqb (profile_primary_goal user_profile) "muscle_gain");
        [ | destruct (String.eqb (profile_primary_goal user_profile) "cardio") ] ];
    cbn [sub_goals];
    repeat match goal with
           | |- context [has_insight ?v ?k] => destruct (has_insight v k)
           end;
    vm_compute; reflexivity.
Qed.

Lemma planner_queries_strip_prefix :
  forallb (fun g => String.eqb (targeted_query g) (claimed_targeted_query g))
          planner_sub_goals = true.
Proof. vm_compute. reflexivity. Qed.

Example targeted_query_weight_loss :
  targeted_query "identify_calorie_burning_exercises" = "calorie burning exercises".
Proof. reflexivity. Qed.

(** C5, as stated, fails.  With four sub-goals and iteration index 4 the
    code issues no search (the log stays empty) and returns no result,
    where the claimed fallback to sub-goal 0 issues the query
    "endurance training methods" and returns its hit. *)
Lemma targeted_search_no_fallback_to_first_sub_goal :
  _execute_targeted_search logging_search cardio_plan some_profile 4 [] = ([], [])
  /\ claimed_execute_targeted_search logging_search cardio_plan 4 []
     = ([targeted_result (hit "Strength" (Some 0.25%float))],
        ["endurance training methods"]).
Proof. split; vm_compute; reflexivity. Qed.

(** C5, amended.  When [iteration] is within [plan.sub_goals], the
    targeted search builds its query from the sub-goal at that index by
    removing every occurrence of find_, identify_, locate_ and discover_
    (in this order) and replacing underscores with spaces, issues exactly
    one search with it, and returns the first three hits at most (none if
    the search raises).  When [iteration] is out of range it issues no
    search and returns no result.  On every sub-goal the planner can
    produce, the query is the sub-goal with its verb prefix stripped and
    underscores replaced by spaces. *)
Theorem execute_targeted_search_spec :
  forall (St : Type) (search_exercises : SearchCapability St)
         (plan : AgentPlan) (user_profile : UserProfile) (iteration : nat) (st : St),
    (forall sub_goal,
        sub_goals plan !! iteration = Some sub_goal ->
        _execute_targeted_search search_exercises plan user_profile iteration st
        = (match snd (search_exercises st (targeted_query sub_goal) 5%nat) with
           | Some exercises => map targeted_result (take 3 exercises)
           | None => []
           end,
           fst (search_exercises st (targeted_query sub_goal) 5%nat)))
    /\ ((length (sub_goals plan) <= iteration)%nat ->
        _execute_targeted_search search_exercises plan user_profile iteration st
        = ([], st))
    /\ (length (fst (_execute_targeted_search search_exercises plan user_profile
                       iteration st)) <= 3)%nat
    /\ (forall self profile sub_goal,
           In sub_goal (sub_goals (_create_strategic_plan self profile)) ->
           targeted_query sub_goal = claimed_targeted_query sub_goal).
Proof.
  intros St search_exercises plan user_profile iteration st.
  assert (Hin : forall sub_goal,
             sub_goals plan !! iteration = Some sub_goal ->
             _execute_targeted_search search_exercises plan user_profile iteration st
             = (match snd (search_exercises st (targeted_query sub_goal) 5%nat) with
                | Some exercises => map targeted_result (take 3 exercises)
                | None => []
                end,
                fst (search_exercises st (targeted_query sub_goal) 5%nat))).
  { intros sub_goal Hlook. unfold _execute_targeted_search.
    pose proof (lookup_lt_Some _ _ _ Hlook) as Hlt.
    apply Nat.ltb_lt in Hlt. rewrite Hlt, Hlook.
    destruct (search_exercises st (targeted_query sub_goal) 5%nat) as [st' [exs |]];
      reflexivity. }
  assert (Hout : (length (sub_goals plan) <= iteration)%nat ->
                 _execute_targeted_search search_exercises plan user_profile iteration st
                 = ([], st)).
  { intros Hge. unfold _execute_targeted_search.
    apply Nat.ltb_ge in Hge. rewrite Hge. reflexivity. }
  split; [ exact Hin | ]. split; [ exact Hout | ]. split.
  - destruct (sub_goals plan !! iteration) as [sub_goal |] eqn:Hlook.
    + rewrite (Hin sub_goal eq_refl). cbn [fst].
      destruct (snd (search_exercises st (targeted_query sub_goal) 5%nat));
        [ | cbn; lia ].
      rewrite length_map, length_take. lia.
    + apply lookup_ge_None in Hlook. rewrite (Hout Hlook). cbn. lia.
  - intros self profile sub_goal Hsub.
    pose proof (create_strategic_plan_sub_goals self profile) as Hvocab.
    rewrite forallb_forall in Hvocab. specialize (Hvocab _ Hsub).
    apply existsb_exists in Hvocab. destruct Hvocab as (g & Hg & Heq).
    apply String.eqb_eq in Heq. subst g.
    pose proof planner_queries_strip_prefix as Hq.
    rewrite forallb_forall in Hq. specialize (Hq _ Hg).
    apply String.eqb_eq in Hq. exact Hq.
Qed.

(** ** Relevance scores *)

Lemma distance_or_returned fallback exercise d :
  ex_distance exercise = Some d -> Py.truthy d = true ->
  distance_or fallback exercise = d.
Proof. intros Hd Ht. unfold distance_or. rewrite Hd, Ht. reflexivity. Qed.

Lemma distance_or_missing fallback exercise :
  ex_distance exercise = None -> distance_or fallback exercise = fallback.
Proof. intros Hd. unfold distance_or. rewrite Hd. reflexivity. Qed.

Section Relevance.

Context {St : Type} (search_exercises : SearchCapability St).

Lemma In_take {A} (x : A) n (xs : list A) : In x (take n xs) -> In x xs.
Proof.
  intros H. apply list_elem_of_In. apply list_elem_of_In in H.
  exact (subseteq_take n xs x H).
Qed.

Lemma search_each_from_hits strategy convert terms :
  (forall term exercise, relevance_from strategy exercise (convert term exercise)) ->
  forall acc st,
    List.Forall (from_returned_hit search_exercises strategy) acc ->
    List.Forall (from_returned_hit search_exercises strategy)
      (fst (fold_left
              (fun '(results, st) term =>
                 match search_exercises st term 5%nat with
                 | (st', Some exercises) =>
                     (results ++ map (convert term) (take 2 exercises), st')
                 | (st', None) => (results, st')
                 end)
              terms (acc, st))).
Proof.
  intros Hconv. induction terms as [| term rest IH]; intros acc st Hacc.
  - exact Hacc.
  - cbn [fold_left].
    destruct (search_exercises st term 5%nat) as [st' [exercises |]] eqn:Hcall.
    + apply IH. apply List.Forall_app. split; [ exact Hacc | ].
      apply List.Forall_forall. intros r Hr.
      apply List.in_map_iff in Hr. destruct Hr as (exercise & <- & Hex).
      exists exercise. split; [ | apply Hconv ].
      exists st, term, st', exercises. split; [ exact Hcall | ].
      apply In_take in Hex. exact Hex.
    + apply IH. exact Hacc.
Qed.

Lemma targeted_from_hits plan user_profile iteration st :
  List.Forall (from_returned_hit search_exercises TARGETED_SEARCH)
    (fst (_execute_targeted_search search_exercises plan user_profile iteration st)).
Proof.
  unfold _execute_targeted_search.
  destruct (iteration <? length (sub_goals plan))%nat; [ | constructor ].
  destruct (sub_goals plan !! iteration) as [g |]; [ | constructor ].
  destruct (search_exercises st (targeted_query g) 5%nat)
    as [st' [exercises |]] eqn:Hcall; [ | constructor ].
  cbn [fst]. apply List.Forall_forall. intros r Hr.
  apply List.in_map_iff in Hr. destruct Hr as (exercise & <- & Hex).
  exists exercise. split; [ | reflexivity ].
  exists st, (targeted_query g), st', exercises. split; [ exact Hcall | ].
  apply In_take in Hex. exact Hex.
Qed.

Lemma strategic_search_from_hits strategy plan user_profile iteration st :
  List.Forall (from_returned_hit search_exercises strategy)
    (fst (_execute_strategic_search search_exercises strategy plan user_profile
            iteration st)).
Proof.
  destruct strategy; cbn [_execute_strategic_search].
  - apply search_each_from_hits; [ reflexivity | constructor ].
  - apply targeted_from_hits.
  - apply targeted_from_hits.
  - apply search_each_from_hits; [ reflexivity | constructor ].
Qed.

End Relevance.

(** C6, as stated, fails.  The capability's distance is not bounded by 1:
    for hits at distance 1.5 the broad search produces results whose
    relevance is -0.5, outside [0,1]. *)
Lemma relevance_score_outside_unit_interval :
  map relevance_score
      (fst (_execute_broad_search far_search cardio_plan some_profile tt))
  = repeat (-0.5)%float 8
  /\ in_unit_interval (-0.5)%float = false.
Proof. split; vm_compute; reflexivity. Qed.

(** C6, amended.  Each result produced by any of the four strategies comes
    from a hit the capability returned, and its relevance is [1 - d] when
    that hit carries a non-zero distance [d], and [1 - default] with the
    strategy's default distance (0.5 broad, 0.6 targeted and progressive,
    0.55 multi-angle) when the hit carries no distance; with the default
    distance the relevance lies in [0,1].  No clamping is applied to a
    returned distance. *)
Theorem relevance_score_from_distance :
  forall (St : Type) (search_exercises : SearchCapability St)
         (strategy : AgentStrategy) (plan : AgentPlan) (user_profile : UserProfile)
         (iteration : nat) (st : St),
    List.Forall
      (fun r =>
         exists exercise,
           returned_hit search_exercises exercise
           /\ (forall d, ex_distance exercise = Some d -> Py.truthy d = true ->
                         relevance_score r = (1 - d)%float)
           /\ (ex_distance exercise = None ->
               relevance_score r = (1 - default_distance strategy)%float
               /\ in_unit_interval (relevance_score r) = true))
      (fst (_execute_strategic_search search_exercises strategy plan user_profile
              iteration st)).
Proof.
  intros St search_exercises strategy plan user_profile iteration st.
  eapply List.Forall_impl;
    [ | apply (strategic_search_from_hits search_exercises strategy) ].
  intros r (exercise & Hret & Hrel). unfold relevance_from in Hrel.
  exists exercise. split; [ exact Hret | ]. split.
  - intros d Hd Ht. rewrite Hrel, (distance_or_returned _ _ _ Hd Ht). reflexivity.
  - intros Hd. rewrite Hrel, (distance_or_missing _ _ Hd).
    split; [ reflexivity | ]. destruct strategy; vm_compute; reflexivity.
Qed.

(** ** Fitness level *)

(** C9, as stated, fails.  For a 30-year-old and the text "muscular build"
    the code answers "advanced" where the claim gives the age band
    "intermediate"; for a 20-year-old and the text "moderate fitness" the
    code answers "intermediate" where the claim gives
    "beginner_to_intermediate". *)
Lemma infer_fitness_level_not_as_claimed :
  (_infer_fitness_level (user_aged 30) "muscular build" = "advanced"
   /\ claimed_infer_fitness_level (user_aged 30) "muscular build" = "intermediate")
  /\ (_infer_fitness_level (user_aged 20) "moderate fitness" = "intermediate"
      /\ claimed_infer_fitness_level (user_aged 20) "moderate fitness"
         = "beginner_to_intermediate").
Proof. repeat split; vm_compute; reflexivity. Qed.

Lemma contains_empty_hay c needle :
  Py.contains (String c needle) "" = false.
Proof. reflexivity. Qed.

(** Decide the age band by cases on the two comparisons of the source. *)
Ltac by_age_band years :=
  destruct (Z.ltb_spec years 25); destruct (Z.ltb_spec 50 years);
  first [ reflexivity | lia ].

(** C9, amended.  On the lower-cased visual-analysis text the inference
    returns "advanced" when it contains "advanced", "muscular" or
    "athletic"; otherwise "beginner" when it contains "beginner",
    "sedentary" or "limited experience"; otherwise "intermediate" when it
    contains "intermediate" or "moderate"; otherwise (in particular for an
    empty text) the age band: "beginner_to_intermediate" below 25,
    "experienced_but_cautious" above 50, "intermediate" in between, the
    age being 30 when the request has none. *)
Theorem infer_fitness_level_spec :
  forall (user_data : UserData) (image_analysis : string),
    let years := default 30 (age user_data) in
    let level := _infer_fitness_level user_data image_analysis in
    let advanced := mentions ["advanced"; "muscular"; "athletic"] image_analysis in
    let beginner :=
      mentions ["beginner"; "sedentary"; "limited experience"] image_analysis in
    let intermediate := mentions ["intermediate"; "moderate"] image_analysis in
    (advanced = true -> level = "advanced")
    /\ (advanced = false -> beginner = true -> level = "beginner")
    /\ (advanced = false -> beginner = false -> intermediate = true ->
        level = "intermediate")
    /\ (advanced = false -> beginner = false -> intermediate = false ->
        (years < 25 -> level = "beginner_to_intermediate")
        /\ (50 < years -> level = "experienced_but_cautious")
        /\ (25 <= years <= 50 -> level = "intermediate"))
    /\ (image_analysis = "" ->
        advanced = false /\ beginner = false /\ intermediate = false).
Proof.
  intros user_data image_analysis years level advanced beginner intermediate.
  subst level advanced beginner intermediate. unfold mentions, Py.any_in.
  cbn [existsb]. rewrite !orb_false_r, !orb_assoc.
  unfold _infer_fitness_level. fold years.
  destruct image_analysis as [| c rest].
  - cbn [Py.lower]. rewrite !contains_empty_hay. cbn [orb].
    repeat split; intros; try discriminate; by_age_band years.
  - set (t := Py.lower (String c rest)).
    repeat split; intros;
      repeat match goal with
             | H : orb _ _ = _ |- _ => rewrite H; clear H
             end;
      try discriminate; try reflexivity; by_age_band years.
Qed.

(** ** The planner's plans never make the loop raise *)

Lemma append_if_nonempty visual_insights key goal sub_goals :
  sub_goals <> [] -> append_if visual_insights key goal sub_goals <> [].
Proof.
  intros H. unfold append_if. destruct (has_insight visual_insights key);
    [ | exact H ].
  destruct sub_goals; [ contradiction | discriminate ].
Qed.

Lemma create_strategic_plan_nonempty self user_profile :
  sub_goals (_create_strategic_plan self user_profile) <> []
  /\ search_strategies (_create_strategic_plan self user_profile) <> [].
Proof.
  unfold _create_strategic_plan.
  destruct (String.eqb (profile_primary_goal user_profile) "weight_loss");
    [ | destruct (String.eqb (profile_primary_goal user_profile) "muscle_gain");
        [ | destruct (String.eqb (profile_primary_goal user_profile) "cardio") ] ];
    cbn [sub_goals search_strategies];
    (split; [ repeat apply append_if_nonempty | ]; discriminate).
Qed.

Lemma select_optimal_strategy_returns plan results iteration :
  search_strategies plan <> [] ->
  exists strategy, _select_optimal_strategy plan results iteration = Return strategy.
Proof.
  intros Hs. unfold _select_optimal_strategy, cyclic_index.
  destruct (iteration =? 0)%nat; [ eauto | ].
  destruct (length results <? 3)%nat; [ eauto | ].
  destruct (_results_lack_specificity results); [ eauto | ].
  destruct (_results_need_refinement results); [ eauto | ].
  destruct (search_strategies plan); [ contradiction | eauto ].
Qed.

Lemma assess_result_quality_returns new_results plan all_results :
  sub_goals plan <> [] ->
  exists q, _assess_result_quality new_results plan all_results = Return q.
Proof.
  intros Hs. unfold _assess_result_quality.
  destruct new_results; [ eauto | ].
  destruct (sub_goals plan); [ contradiction | eauto ].
Qed.

Section Completion.

Context {St : Type} (search_exercises : SearchCapability St).
Context (self : Config) (plan : AgentPlan) (user_profile : UserProfile).
Hypothesis sub_goals_nonempty : sub_goals plan <> [].
Hypothesis strategies_nonempty : search_strategies plan <> [].

Lemma iteration_body_returns s iteration :
  exists s' stop,
    iteration_body search_exercises self plan user_profile s iteration
    = Return (s', stop).
Proof.
  unfold iteration_body.
  destruct (select_optimal_strategy_returns plan (search_results s) iteration
              strategies_nonempty) as [strategy ->].
  cbn [bind].
  destruct (_execute_strategic_search search_exercises strategy plan user_profile
              iteration (store s)) as [iteration_results st'].
  destruct (assess_result_quality_returns iteration_results plan (search_results s)
              sub_goals_nonempty) as [q ->].
  cbn [bind].
  destruct (_should_stop_searching self q plan iteration); eauto.
Qed.

Lemma run_iterations_completes iterations : forall s,
  snd (run_iterations search_exercises self plan user_profile iterations s) = None.
Proof.
  induction iterations as [| iteration rest IH]; intros s; [ reflexivity | ].
  cbn [run_iterations].
  destruct (iteration_body_returns s iteration) as (s' & stop & ->).
  destruct stop; [ reflexivity | apply IH ].
Qed.

End Completion.

Lemma planned_loop_completes {St} (search_exercises : SearchCapability St)
    self user_profile memory st :
  snd (agentic_loop search_exercises self (_create_strategic_plan self user_profile)
         user_profile memory st) = None.
Proof.
  destruct (create_strategic_plan_nonempty self user_profile) as [Hg Hs].
  apply run_iterations_completes; assumption.
Qed.

(** ** Reflection *)

(** What the source computes: the flag compares the number of accumulated
    results with the plan's expected iterations. *)
Lemma planning_effectiveness_counts_results plan results :
  planning_effectiveness (_generate_reflection_insights plan results) = true
  <-> Z.of_nat (length results) <= expected_iterations plan.
Proof. cbn. apply Z.leb_le. Qed.

(** C8: the code at the failing input.  With the default configuration, a
    cardio request and a store that answers every query with two close
    hits, the loop stops after its first round (one round, within the
    plan's three expected iterations), and the reflection nevertheless
    reports [planning_effectiveness = False], because it compares the
    eight accumulated results, not the one round, with the expected
    iterations. *)
Theorem planning_effectiveness_false_after_one_round :
  let user_profile := _analyze_user_profile (user_aged 30) "" in
  let plan := _create_strategic_plan default_config user_profile in
  let final := fst (agentic_loop rich_search default_config plan user_profile ∅ tt) in
  length (rounds final) = 1%nat
  /\ expected_iterations plan = 3
  /\ length (search_results final) = 8%nat
  /\ planning_effectiveness_of
       (generate_recommendation rich_search default_config (user_aged 30) "" ∅ tt)
     = Some false.
Proof. repeat split; vm_compute; reflexivity. Qed.

(** ** The payload's [iterations_used] *)

(** C10, as stated, fails.  With the default configuration and a store
    that answers only its first query, the run takes three rounds that
    return 2, 0 and 0 results: some round returns more than one result,
    yet [iterations_used] is 2, which does not exceed the three rounds. *)
Lemma iterations_used_not_above_rounds :
  let user_profile := _analyze_user_profile (user_aged 30) "" in
  let plan := _create_strategic_plan default_config user_profile in
  let final :=
    fst (agentic_loop first_only_search default_config plan user_profile ∅ 0%nat) in
  round_counts final = [2; 0; 0]%nat
  /\ iterations_used_of
       (generate_recommendation first_only_search default_config (user_aged 30) "" ∅
          0%nat)
     = Some 2%nat.
Proof. split; vm_compute; reflexivity. Qed.

Lemma list_sum_all_zero counts :
  List.Forall (fun c => c = 0%nat) counts -> list_sum counts = 0%nat.
Proof.
  unfold list_sum. induction 1 as [| c rest Hc _ IH]; [ reflexivity | ].
  cbn [fold_right]. rewrite Hc, IH. reflexivity.
Qed.

Lemma list_sum_at_least_length counts :
  List.Forall (fun c => (1 <= c)%nat) counts -> (length counts <= list_sum counts)%nat.
Proof.
  unfold list_sum. induction 1 as [| c rest Hc _ IH]; cbn [fold_right length]; lia.
Qed.

Lemma list_sum_above_length counts :
  List.Forall (fun c => (1 <= c)%nat) counts ->
  List.Exists (fun c => (1 < c)%nat) counts ->
  (length counts < list_sum counts)%nat.
Proof.
  intros Hall Hsome. induction Hsome as [c rest Hc | c rest _ IH].
  - apply List.Forall_cons_iff in Hall. destruct Hall as [_ Hrest].
    pose proof (list_sum_at_least_length rest Hrest) as Hle.
    unfold list_sum in *. cbn [fold_right length]. lia.
  - apply List.Forall_cons_iff in Hall. destruct Hall as [Hc Hrest].
    specialize (IH Hrest). unfold list_sum in *. cbn [fold_right length]. lia.
Qed.

(** C10, amended.  Every run returns a payload whose [iterations_used] is
    the number of accumulated results, that is the sum of the per-round
    result counts, and not the number of rounds: it is 0 when every round
    returns no result, and it strictly exceeds the number of rounds when
    every round returns at least one result and some round returns more
    than one. *)
Theorem iterations_used_counts_results :
  forall (St : Type) (search_exercises : SearchCapability St) (self : Config)
         (user_data : UserData) (image_analysis : string)
         (memory : gmap string (list MemoryEntry)) (st : St),
    let user_profile := _analyze_user_profile user_data image_analysis in
    let plan := _create_strategic_plan self user_profile in
    let final := fst (agentic_loop search_exercises self plan user_profile memory st) in
    exists payload,
      generate_recommendation search_exercises self user_data image_analysis memory st
      = Return payload
      /\ iterations_used payload = length (search_results final)
      /\ iterations_used payload = list_sum (round_counts final)
      /\ (List.Forall (fun c => c = 0%nat) (round_counts final) ->
          iterations_used payload = 0%nat)
      /\ (List.Forall (fun c => (1 <= c)%nat) (round_counts final) ->
          List.Exists (fun c => (1 < c)%nat) (round_counts final) ->
          (length (rounds final) < iterations_used payload)%nat).
Proof.
  intros St search_exercises self user_data image_analysis memory st
         user_profile plan final.
  pose proof (planned_loop_completes search_exercises self user_profile memory st)
    as Hdone.
  fold plan in Hdone.
  pose proof (history_ok_sum _
                (proj1 (agentic_loop_history search_exercises self plan user_profile
                          memory st))) as Hsum.
  fold final in Hsum.
  unfold generate_recommendation. fold user_profile. fold plan.
  destruct (agentic_loop search_exercises self plan user_profile memory st)
    as [s raised] eqn:Hloop.
  cbn [snd] in Hdone. subst raised. cbn [fst] in final. subst final.
  eexists. split; [ reflexivity | ]. cbn [iterations_used].
  split; [ reflexivity | ]. split; [ exact Hsum | ]. split.
  - intros Hzero. rewrite Hsum. apply list_sum_all_zero. exact Hzero.
  - intros Hall Hsome. rewrite Hsum.
    replace (length (rounds s)) with (length (round_counts s))
      by (unfold round_counts; apply length_map).
    apply list_sum_above_length; assumption.
Qed.

(** * Scenarios

    The properties above applied to concrete runs. *)

(** Scenario B of the specification: when every search raises, the run
    still takes its three rounds, each with no result, and the payload
    reports no result used. *)
Example always_raising_search_run :
  let user_profile := _analyze_user_profile (user_aged 30) "" in
  let plan := _create_strategic_plan default_config user_profile in
  let outcome := agentic_loop failing_search default_config plan user_profile ∅ tt in
  round_counts (fst outcome) = [0; 0; 0]%nat
  /\ snd outcome = None
  /\ search_results_used
       <$> match generate_recommendation failing_search default_config
                   (user_aged 30) "" ∅ tt with
           | Return payload => Some payload
           | Raise _ => None
           end
     = Some 0%nat.
Proof. repeat split; vm_compute; reflexivity. Qed.

(** Scenario C: with [max_iterations = 1] exactly one round runs. *)
Example single_iteration_run :
  let self := {| max_iterations := 1; reflection_mode := true |} in
  let user_profile := _analyze_user_profile (user_aged 30) "" in
  let plan := _create_strategic_plan self user_profile in
  round_counts (fst (agentic_loop first_only_search self plan user_profile ∅ 0%nat))
  = [2]%nat.
Proof. vm_compute. reflexivity. Qed.

(** A non-positive bound runs no round at all. *)
Example no_iteration_run :
  let self := {| max_iterations := -2; reflection_mode := true |} in
  let user_profile := _analyze_user_profile (user_aged 30) "" in
  let plan := _create_strategic_plan self user_profile in
  round_counts (fst (agentic_loop rich_search self plan user_profile ∅ tt)) = [].
Proof. vm_compute. reflexivity. Qed.

(** The memory is updated only by rounds that do not stop the loop. *)
Example memory_after_three_rounds :
  let user_profile := _analyze_user_profile (user_aged 30) "" in
  let plan := _create_strategic_plan default_config user_profile in
  let final :=
    fst (agentic_loop first_only_search default_config plan user_profile ∅ 0%nat) in
  length (stored (successful_strategies final) "broad_search") = 1%nat
  /\ length (stored (successful_strategies final) "multi_angle_approach") = 1%nat.
Proof. split; vm_compute; reflexivity. Qed.

(** The selector's third, fourth and fifth rules at iteration 1. *)
Lemma select_optimal_strategy_priority_witness :
  _select_optimal_strategy cardio_plan capitalised_results 1 = Return TARGETED_SEARCH
  /\ _select_optimal_strategy cardio_plan (repeat moderate_result 3) 1
     = Return PROGRESSIVE_REFINEMENT
  /\ _select_optimal_strategy cardio_plan (repeat (result_of_type "Strength") 3) 1
     = Return MULTI_ANGLE_APPROACH.
Proof.
  split; [ | split ].
  - apply (proj1 (proj2 (proj2
             (select_optimal_strategy_priority cardio_plan capitalised_results 1))));
      [ discriminate | vm_compute; lia | vm_compute; reflexivity ].
  - apply (proj1 (proj2 (proj2 (proj2
             (select_optimal_strategy_priority cardio_plan
                (repeat moderate_result 3) 1)))));
      [ discriminate | vm_compute; lia | vm_compute; discriminate
      | split; vm_compute; reflexivity ].
  - apply (proj1 (proj2 (proj2 (proj2 (proj2
             (select_optimal_strategy_priority cardio_plan
                (repeat (result_of_type "Strength") 3) 1))))));
      [ discriminate | vm_compute; lia | vm_compute; discriminate
      | intros [_ H]; vm_compute in H; discriminate H ].
Defined.

(** The targeted search inside and outside the range of the sub-goals. *)
Lemma execute_targeted_search_spec_witness :
  _execute_targeted_search logging_search cardio_plan some_profile 1 []
  = ([targeted_result (hit "Strength" (Some 0.25%float))], ["cardio progressions"])
  /\ _execute_targeted_search logging_search cardio_plan some_profile 4 [] = ([], []).
Proof.
  split.
  - apply (proj1 (execute_targeted_search_spec (list string) logging_search
                    cardio_plan some_profile 1 [])
                 "identify_cardio_progressions").
    reflexivity.
  - apply (proj1 (proj2 (execute_targeted_search_spec (list string) logging_search
                           cardio_plan some_profile 4 []))).
    vm_compute. lia.
Defined.

(** The fitness level with and without a keyword in the text. *)
Lemma infer_fitness_level_spec_witness :
  _infer_fitness_level (user_aged 30) "Muscular build" = "advanced"
  /\ _infer_fitness_level (user_aged 20) "limited experience, sedentary" = "beginner"
  /\ _infer_fitness_level (user_aged 20) "moderate fitness" = "intermediate"
  /\ _infer_fitness_level (user_aged 60) "" = "experienced_but_cautious".
Proof.
  split; [ | split; [ | split ] ].
  - apply (proj1 (infer_fitness_level_spec (user_aged 30) "Muscular build")).
    vm_compute. reflexivity.
  - apply (proj1 (proj2 (infer_fitness_level_spec (user_aged 20)
                           "limited experience, sedentary")));
      vm_compute; reflexivity.
  - apply (proj1 (proj2 (proj2 (infer_fitness_level_spec (user_aged 20)
                                  "moderate fitness"))));
      vm_compute; reflexivity.
  - apply (proj1 (proj2 (proj1 (proj2 (proj2 (proj2
             (infer_fitness_level_spec (user_aged 60) "")))) eq_refl eq_refl eq_refl))).
    vm_compute. reflexivity.
Defined.

(** A run whose single round returns eight results: [iterations_used] is
    8, above the one round. *)
Lemma iterations_used_counts_results_witness :
  exists payload,
    generate_recommendation rich_search default_config (user_aged 30) "" ∅ tt
    = Return payload
    /\ iterations_used payload = 8%nat
    /\ (1 < iterations_used payload)%nat.
Proof.
  destruct (iterations_used_counts_results unit rich_search default_config
              (user_aged 30) "" ∅ tt)
    as (payload & Hrun & _ & Hsum & _ & Habove).
  exists payload. split; [ exact Hrun | ]. split.
  - rewrite Hsum. vm_compute. reflexivity.
  - apply Habove.
    + vm_compute. repeat constructor.
    + vm_compute. constructor. lia.
Defined.

(** A targeted search on hits without distance: the default 0.6 gives the
    relevance [1 - 0.6], inside [0,1]. *)
Lemma relevance_score_from_distance_witness :
  exists r,
    fst (_execute_strategic_search undistanced_search TARGETED_SEARCH cardio_plan
           some_profile 0 tt) = [r]
    /\ relevance_score r = (1 - 0.6)%float
    /\ in_unit_interval (relevance_score r) = true.
Proof.
  pose proof (relevance_score_from_distance unit undistanced_search TARGETED_SEARCH
                cardio_plan some_profile 0 tt) as Hall.
  assert (Hrun : fst (_execute_strategic_search undistanced_search TARGETED_SEARCH
                        cardio_plan some_profile 0 tt)
                 = [targeted_result (hit "Strength" None)]) by reflexivity.
  rewrite Hrun in Hall. apply List.Forall_inv in Hall.
  destruct Hall as (exercise & Hreturned & _ & Hmissing).
  exists (targeted_result (hit "Strength" None)). split; [ exact Hrun | ].
  apply Hmissing.
  destruct Hreturned as (st & query & st' & exercises & Hcall & Hin).
  unfold undistanced_search in Hcall. injection Hcall as _ <-.
  destruct Hin as [<- | []]. reflexivity.
Defined.

(** * Further properties of the module *)

(** ** Substrings *)

Lemma append_nil_l (s : string) : ("" ++ s)%string = s.
Proof. reflexivity. Qed.

Lemma append_cons c (a b : string) : (String c a ++ b)%string = String c (a ++ b).
Proof. reflexivity. Qed.

Lemma prefix_nil hay : String.prefix "" hay = true.
Proof. destruct hay; reflexivity. Qed.

Lemma prefix_cons c needle d hay :
  String.prefix (String c needle) (String d hay)
  = if Ascii.ascii_dec c d then String.prefix needle hay else false.
Proof. reflexivity. Qed.

Lemma contains_cons needle c hay :
  Py.contains needle (String c hay)
  = String.prefix needle (String c hay) || Py.contains needle hay.
Proof. reflexivity. Qed.

Lemma prefix_append needle rest : String.prefix needle (needle ++ rest)%string = true.
Proof.
  induction needle as [| c needle IH]; [ apply prefix_nil | ].
  rewrite append_cons, prefix_cons.
  destruct (Ascii.ascii_dec c c); [ exact IH | contradiction ].
Qed.

Lemma prefix_split needle : forall hay,
  String.prefix needle hay = true -> exists rest, hay = (needle ++ rest)%string.
Proof.
  induction needle as [| c needle IH]; intros hay H.
  - exists hay. reflexivity.
  - destruct hay as [| d hay]; [ discriminate | ]. rewrite prefix_cons in H.
    destruct (Ascii.ascii_dec c d) as [-> | _]; [ | discriminate ].
    destruct (IH hay H) as [rest ->]. exists rest. reflexivity.
Qed.

Lemma contains_prefix needle hay :
  String.prefix needle hay = true -> Py.contains needle hay = true.
Proof. intros H. destruct hay; cbn [Py.contains]; rewrite H; reflexivity. Qed.

Lemma contains_append before needle after :
  Py.contains needle (before ++ needle ++ after)%string = true.
Proof.
  induction before as [| c before IH].
  - rewrite append_nil_l. apply contains_prefix, prefix_append.
  - rewrite append_cons, contains_cons, IH. apply orb_true_r.
Qed.

Lemma contains_split needle : forall hay,
  Py.contains needle hay = true ->
  exists before after, hay = (before ++ needle ++ after)%string.
Proof.
  induction hay as [| c hay IH]; intros H.
  - cbn [Py.contains] in H. rewrite orb_false_r in H.
    destruct (prefix_split _ _ H) as [after Heq].
    exists ""%string, after. exact Heq.
  - rewrite contains_cons in H. apply orb_true_iff in H. destruct H as [H | H].
    + destruct (prefix_split _ _ H) as [after Heq].
      exists ""%string, after. exact Heq.
    + destruct (IH H) as (before & after & ->).
      exists (String c before), after. reflexivity.
Qed.

Lemma append_assoc (a b c : string) : ((a ++ b) ++ c = a ++ (b ++ c))%string.
Proof.
  induction a as [| x a IH]; [ reflexivity | ].
  rewrite !append_cons, IH. reflexivity.
Qed.

(** A text that contains [outer] contains every substring of [outer]. *)
Lemma contains_trans inner outer hay :
  Py.contains inner outer = true -> Py.contains outer hay = true ->
  Py.contains inner hay = true.
Proof.
  intros Hin Hout.
  destruct (contains_split _ _ Hin) as (a & b & ->).
  destruct (contains_split _ _ Hout) as (c & d & ->).
  replace (c ++ (a ++ inner ++ b) ++ d)%string
    with ((c ++ a) ++ inner ++ (b ++ d))%string
    by (rewrite !append_assoc; reflexivity).
  apply contains_append.
Qed.

Lemma lower_append (a b : string) :
  Py.lower (a ++ b) = (Py.lower a ++ Py.lower b)%string.
Proof.
  induction a as [| c a IH]; [ reflexivity | ].
  rewrite append_cons. cbn [Py.lower]. rewrite IH, append_cons. reflexivity.
Qed.

(** ** Health constraints *)

(** Membership of a literal in a literal list of strings, against a
    literal boolean. *)
Ltac not_listed H :=
  cbn [In] in H; repeat (destruct H as [H | H]; [ discriminate H | ]); contradiction.

Ltac tag_listed :=
  split; intros H;
  [ first [ reflexivity | not_listed H ]
  | first [ discriminate H
          | cbn [In]; repeat (first [ left; reflexivity | right ]) ] ].

Ltac distinct_tags :=
  repeat (constructor; [ let H := fresh in intros H; not_listed H | ]); constructor.

(** X1. Each constraint tag is produced exactly when its keyword occurs in
    the text; the tags come without repetition and in the fixed order
    knee, back, heart, whatever the order of the keywords in the text. *)
Theorem parse_health_constraints_spec :
  forall health_conditions : string,
    let constraints := _parse_health_constraints health_conditions in
    (In "low_impact_preferred" constraints
     <-> Py.contains "knee" health_conditions = true)
    /\ (In "spine_neutral_exercises" constraints
        <-> Py.contains "back" health_conditions = true)
    /\ (In "moderate_intensity_only" constraints
        <-> Py.contains "heart" health_conditions = true)
    /\ List.NoDup constraints
    /\ sublist constraints constraint_vocabulary.
Proof.
  intros health_conditions. cbn zeta. unfold _parse_health_constraints.
  destruct (Py.contains "knee" health_conditions),
           (Py.contains "back" health_conditions),
           (Py.contains "heart" health_conditions);
    cbn [app];
    (split; [ tag_listed | ]; split; [ tag_listed | ]; split; [ tag_listed | ];
     split; [ distinct_tags | unfold constraint_vocabulary; repeat constructor ]).
Qed.

Example knee_pain_constraints :
  _parse_health_constraints (Py.lower "Knee pain") = ["low_impact_preferred"].
Proof. reflexivity. Qed.

(** ** Equipment access *)

Lemma Forall_if_chunk {A} (P : A -> Prop) (b : bool) (xs : list A) :
  List.Forall P xs -> List.Forall P (if b then xs else []).
Proof. destruct b; [ trivial | constructor ]. Qed.

(** The list always starts with "bodyweight", followed by at least one
    name of the equipment vocabulary. *)
Lemma equipment_detected_shape image_analysis :
  exists first rest,
    equipment_detected image_analysis = "bodyweight" :: first :: rest
    /\ List.Forall (fun name => In name equipment_vocabulary) (first :: rest).
Proof.
  unfold equipment_detected.
  set (found := match image_analysis with
                | EmptyString => []
                | _ => _
                end).
  assert (Hfound : List.Forall (fun name => In name equipment_vocabulary) found).
  { subst found. destruct image_analysis as [| c text]; [ constructor | ].
    repeat (apply List.Forall_app; split);
      apply Forall_if_chunk;
      repeat (constructor; [ cbn; tauto | ]); constructor. }
  destruct found as [| first rest].
  - cbn. exists "dumbbells", ["resistance_bands"]. split; [ reflexivity | ].
    repeat (constructor; [ cbn; tauto | ]); constructor.
  - exists first, rest. split; [ reflexivity | exact Hfound ].
Qed.

Lemma not_bodyweight name : In name equipment_vocabulary -> name <> "bodyweight".
Proof.
  intros H ->. not_listed H.
Qed.

Lemma list_to_set_three (x y z : string) :
  list_to_set [x; y; z] =@{gset string} {[ x; y; z ]}.
Proof.
  cbn [list_to_set]. rewrite (right_id_L ∅ (∪)), (assoc_L (∪)). reflexivity.
Qed.

(** X2. The inferred equipment always contains "bodyweight" and at least
    one further item, so it never has fewer than two elements; when the
    text mentions none of the equipment keywords (in particular when it is
    empty) it is exactly bodyweight, dumbbells and resistance bands. *)
Theorem infer_equipment_access_invariants :
  forall image_analysis : string,
    "bodyweight" ∈ _infer_equipment_access image_analysis
    /\ (2 <= size (_infer_equipment_access image_analysis))%nat
    /\ (Py.any_in equipment_keywords (Py.lower image_analysis) = false ->
        _infer_equipment_access image_analysis
        = {[ "bodyweight"; "dumbbells"; "resistance_bands" ]}).
Proof.
  intros image_analysis. unfold _infer_equipment_access.
  destruct (equipment_detected_shape image_analysis)
    as (first & rest & Hshape & Hvocab).
  split; [ | split ].
  - rewrite Hshape. apply elem_of_list_to_set, list_elem_of_here.
  - rewrite Hshape.
    apply List.Forall_inv in Hvocab. apply not_bodyweight in Hvocab.
    transitivity (size ({[ "bodyweight" ]} ∪ {[ first ]} : gset string)).
    + rewrite size_union.
      * rewrite !size_singleton. lia.
      * intros name Hbody Hfirst.
        apply elem_of_singleton in Hbody. apply elem_of_singleton in Hfirst.
        congruence.
    + apply subseteq_size. intros name Hname. apply elem_of_list_to_set.
      apply elem_of_union in Hname.
      destruct Hname as [Hname | Hname]; apply elem_of_singleton in Hname;
        subst name; [ apply list_elem_of_here | ].
      apply list_elem_of_further, list_elem_of_here.
  - intros Hnone. clear first rest Hshape Hvocab.
    rewrite <- list_to_set_three. f_equal.
    unfold equipment_detected.
    destruct image_analysis as [| c text]; [ reflexivity | ].
    set (t := Py.lower (String c text)) in *.
    unfold Py.any_in, equipment_keywords in Hnone. cbn [existsb] in Hnone.
    repeat (apply orb_false_elim in Hnone; destruct Hnone as [?H Hnone]).
    repeat match goal with
           | H : Py.contains _ t = false |- _ => rewrite H in *
           end.
    reflexivity.
Qed.

(** A literal among the elements of a literal list turned into a set. *)
Ltac listed :=
  apply elem_of_list_to_set, list_elem_of_In; cbn [In app];
  repeat (first [ left; reflexivity | right ]).

(** X3. Because "weight" is a substring of "bodyweight" and "machine" of
    "cardio machine", a text that mentions bodyweight training is given
    dumbbells and free weights, and a text that mentions a cardio machine
    is given the gym machines as well. *)
Theorem infer_equipment_access_substring_keywords :
  forall image_analysis : string,
    (Py.contains "bodyweight" (Py.lower image_analysis) = true ->
     "dumbbells" ∈ _infer_equipment_access image_analysis
     /\ "free_weights" ∈ _infer_equipment_access image_analysis)
    /\ (Py.contains "cardio machine" (Py.lower image_analysis) = true ->
        "cardio_machines" ∈ _infer_equipment_access image_analysis
        /\ "gym_machines" ∈ _infer_equipment_access image_analysis
        /\ "cable_machine" ∈ _infer_equipment_access image_analysis).
Proof.
  intros image_analysis. unfold _infer_equipment_access, equipment_detected.
  split; intros Hword.
  - assert (Hweight : Py.contains "weight" (Py.lower image_analysis) = true)
      by (apply (contains_trans _ "bodyweight"); [ reflexivity | exact Hword ]).
    destruct image_analysis as [| c text]; [ discriminate Hword | ].
    set (t := Py.lower (String c text)) in *.
    rewrite Hweight, orb_true_r. cbn [app length Nat.eqb].
    split; listed.
  - assert (Hmachine : Py.contains "machine" (Py.lower image_analysis) = true)
      by (apply (contains_trans _ "cardio machine"); [ reflexivity | exact Hword ]).
    destruct image_analysis as [| c text]; [ discriminate Hword | ].
    set (t := Py.lower (String c text)) in *.
    rewrite Hmachine, Hword, !orb_true_r.
    repeat match goal with
           | |- context [if ?b then ?xs else []] =>
               lazymatch b with
               | true => fail
               | _ => destruct b
               end
           end;
      cbn [app length Nat.eqb]; repeat split; listed.
Qed.

(** ** One round of the loop *)

Section Rounds.

Context {St : Type} (search_exercises : SearchCapability St).
Context (self : Config) (plan : AgentPlan) (user_profile : UserProfile).

(** Everything a completed iteration does to the state. *)
Lemma iteration_body_round s iteration s' stop :
  iteration_body search_exercises self plan user_profile s iteration
  = Return (s', stop) ->
  exists strategy quality,
    _select_optimal_strategy plan (search_results s) iteration = Return strategy
    /\ let round := _execute_strategic_search search_exercises strategy plan
                      user_profile iteration (store s) in
       _assess_result_quality (fst round) plan (search_results s) = Return quality
       /\ stop = _should_stop_searching self quality plan iteration
       /\ search_results s' = search_results s ++ fst round
       /\ rounds s' = rounds s ++ [(fst round, search_results s ++ fst round)]
       /\ current_strategy s' = Some strategy
       /\ store s' = snd round
       /\ successful_strategies s'
          = if stop then successful_strategies s
            else _update_agent_memory (successful_strategies s) strategy
                   (fst round) quality.
Proof.
  unfold iteration_body, bind.
  destruct (_select_optimal_strategy plan (search_results s) iteration)
    as [strategy | e]; [ | discriminate ].
  destruct (_execute_strategic_search search_exercises strategy plan user_profile
              iteration (store s)) as [iteration_results st'] eqn:Hround.
  destruct (_assess_result_quality iteration_results plan (search_results s))
    as [q | e] eqn:Hq; [ | discriminate ].
  destruct (_should_stop_searching self q plan iteration) eqn:Hstop;
    intros [= <- <-]; exists strategy, q; cbv zeta; rewrite Hround;
    cbn [fst snd]; rewrite ?Hq, ?Hstop; repeat split.
Qed.

(** The rounds recorded so far are never rewritten by later iterations. *)
Lemma run_iterations_rounds_prefix iterations : forall s,
  exists later,
    rounds (fst (run_iterations search_exercises self plan user_profile iterations s))
    = rounds s ++ later.
Proof.
  induction iterations as [| iteration rest IH]; intros s.
  - exists []. cbn. rewrite app_nil_r. reflexivity.
  - cbn [run_iterations].
    destruct (iteration_body search_exercises self plan user_profile s iteration)
      as [[s' stop] | e] eqn:Hbody.
    + destruct (iteration_body_round _ _ _ _ Hbody)
        as (strategy & q & _ & _ & _ & _ & Hrounds & _).
      destruct stop.
      * cbn [fst]. eexists. exact Hrounds.
      * destruct (IH s') as [later Hlater]. rewrite Hlater, Hrounds, <- app_assoc.
        eexists. reflexivity.
    + exists []. cbn. rewrite app_nil_r. reflexivity.
Qed.

End Rounds.

(** ** Result counts *)

Section Counts.

Context {St : Type} (search_exercises : SearchCapability St).

Lemma search_each_fold_length (convert : string -> Exercise -> SearchResult) terms :
  forall (acc : list SearchResult) st,
  (length (fst (fold_left
                  (fun '(results, st) term =>
                     match search_exercises st term 5%nat with
                     | (st', Some exercises) =>
                         (results ++ map (convert term) (take 2 exercises), st')
                     | (st', None) => (results, st')
                     end)
                  terms (acc, st)))
   <= length acc + 2 * length terms)%nat.
Proof.
  induction terms as [| term rest IH]; intros acc st.
  - cbn. lia.
  - cbn [fold_left].
    destruct (search_exercises st term 5%nat) as [st' [exercises |]].
    + etransitivity; [ apply IH | ].
      rewrite length_app, length_map, length_take. cbn [length]. lia.
    + etransitivity; [ apply IH | ]. cbn [length]. lia.
Qed.

Lemma length_search_terms goal : length (search_terms goal) = 4%nat.
Proof. unfold search_terms. repeat (destruct (String.eqb goal _)); reflexivity. Qed.

Lemma length_angle_searches goal : length (angle_searches goal) = 3%nat.
Proof. unfold angle_searches. repeat (destruct (String.eqb goal _)); reflexivity. Qed.

Lemma targeted_search_length plan user_profile iteration st :
  (length (fst (_execute_targeted_search search_exercises plan user_profile
                  iteration st)) <= 3)%nat.
Proof.
  unfold _execute_targeted_search.
  destruct (iteration <? length (sub_goals plan))%nat; [ | cbn; lia ].
  destruct (sub_goals plan !! iteration); [ | cbn; lia ].
  destruct (search_exercises st _ 5%nat) as [st' [exercises |]]; [ | cbn; lia ].
  cbn [fst]. rewrite length_map, length_take. lia.
Qed.

Lemma strategic_search_length strategy plan user_profile iteration st :
  (length (fst (_execute_strategic_search search_exercises strategy plan
                  user_profile iteration st))
   <= max_results strategy)%nat.
Proof.
  destruct strategy; cbn [_execute_strategic_search max_results].
  - unfold _execute_broad_search, search_each.
    etransitivity; [ apply search_each_fold_length | ].
    rewrite length_search_terms. cbn. lia.
  - apply targeted_search_length.
  - apply targeted_search_length.
  - unfold _execute_multi_angle_search, search_each.
    etransitivity; [ apply search_each_fold_length | ].
    rewrite length_angle_searches. cbn. lia.
Qed.

Lemma max_results_le_8 strategy : (max_results strategy <= 8)%nat.
Proof. destruct strategy; cbn; lia. Qed.

Lemma list_sum_le_bound bound counts :
  List.Forall (fun c => (c <= bound)%nat) counts ->
  (list_sum counts <= bound * length counts)%nat.
Proof.
  unfold list_sum. induction 1 as [| c rest Hc _ IH]; cbn [fold_right length]; lia.
Qed.

Lemma run_iterations_round_counts self plan user_profile iterations : forall s,
  List.Forall (fun c => (c <= 8)%nat) (round_counts s) ->
  List.Forall (fun c => (c <= 8)%nat)
    (round_counts (fst (run_iterations search_exercises self plan user_profile
                          iterations s))).
Proof.
  induction iterations as [| iteration rest IH]; intros s Hs; [ exact Hs | ].
  cbn [run_iterations].
  destruct (iteration_body search_exercises self plan user_profile s iteration)
    as [[s' stop] | e] eqn:Hbody; [ | exact Hs ].
  destruct (iteration_body_round _ _ _ _ _ _ _ _ Hbody)
    as (strategy & q & _ & _ & _ & _ & Hrounds & _).
  assert (Hs' : List.Forall (fun c => (c <= 8)%nat) (round_counts s')).
  { unfold round_counts in *. rewrite Hrounds, map_app.
    apply List.Forall_app. split; [ exact Hs | ].
    constructor; [ | constructor ]. cbn [fst].
    etransitivity; [ apply strategic_search_length | apply max_results_le_8 ]. }
  destruct stop; [ exact Hs' | apply IH; exact Hs' ].
Qed.

(** X4. Whatever the capability answers, one round returns at most 8
    results with the broad search, 6 with the multi-angle search and 3
    with the targeted search and the progressive refinement. *)
Theorem strategic_search_result_bound :
  forall (strategy : AgentStrategy) (plan : AgentPlan) (user_profile : UserProfile)
         (iteration : nat) (st : St),
    (length (fst (_execute_strategic_search search_exercises strategy plan
                    user_profile iteration st))
     <= max_results strategy)%nat
    /\ (max_results strategy <= 8)%nat.
Proof.
  intros strategy plan user_profile iteration st.
  split; [ apply strategic_search_length | apply max_results_le_8 ].
Qed.

(** X5. A whole run accumulates at most 8 results per round, hence at
    most [8 * max_iterations] results, whatever the plan and whatever the
    capability answers. *)
Theorem agentic_loop_result_bound :
  forall (self : Config) (plan : AgentPlan) (user_profile : UserProfile)
         (memory : gmap string (list MemoryEntry)) (st : St),
    let final := fst (agentic_loop search_exercises self plan user_profile memory st) in
    List.Forall (fun c => (c <= 8)%nat) (round_counts final)
    /\ (length (search_results final) <= 8 * Z.to_nat (max_iterations self))%nat.
Proof.
  intros self plan user_profile memory st final.
  assert (Hcounts : List.Forall (fun c => (c <= 8)%nat) (round_counts final)).
  { apply run_iterations_round_counts. constructor. }
  split; [ exact Hcounts | ].
  destruct (agentic_loop_history search_exercises self plan user_profile memory st)
    as [Hok Hbound].
  fold final in Hok, Hbound.
  rewrite (history_ok_sum final Hok).
  etransitivity; [ apply (list_sum_le_bound 8); exact Hcounts | ].
  unfold round_counts. rewrite length_map. lia.
Qed.

End Counts.

(** ** The planner *)

Lemma length_append_if visual_insights key goal sub_goals :
  length (append_if visual_insights key goal sub_goals)
  = (length sub_goals + if has_insight visual_insights key then 1 else 0)%nat.
Proof.
  unfold append_if. destruct (has_insight visual_insights key).
  - rewrite length_app. reflexivity.
  - lia.
Qed.

Lemma create_strategic_plan_goal_count self user_profile :
  (4 <= length (sub_goals (_create_strategic_plan self user_profile)) <= 7)%nat.
Proof.
  unfold _create_strategic_plan.
  destruct (String.eqb (profile_primary_goal user_profile) "weight_loss");
    [ | destruct (String.eqb (profile_primary_goal user_profile) "muscle_gain");
        [ | destruct (String.eqb (profile_primary_goal user_profile) "cardio") ] ];
    cbn [sub_goals]; rewrite !length_append_if; cbn [length];
    repeat match goal with
           | |- context [has_insight ?v ?k] => destruct (has_insight v k)
           end;
    lia.
Qed.

Lemma create_strategic_plan_distinct self user_profile :
  List.NoDup (sub_goals (_create_strategic_plan self user_profile)).
Proof.
  unfold _create_strategic_plan, append_if.
  destruct (String.eqb (profile_primary_goal user_profile) "weight_loss");
    [ | destruct (String.eqb (profile_primary_goal user_profile) "muscle_gain");
        [ | destruct (String.eqb (profile_primary_goal user_profile) "cardio") ] ];
    cbn [sub_goals];
    repeat match goal with
           | |- context [has_insight ?v ?k] => destruct (has_insight v k)
           end;
    cbn [app]; distinct_tags.
Qed.

(** X6. Every plan the planner makes has between 4 and 7 sub-goals, all
    different, exactly two strategies, and an expected number of
    iterations that is at most [max_iterations] and at most 7; without any
    visual insight it has exactly the four base sub-goals; and every goal
    tag other than weight_loss, muscle_gain and cardio (so also
    "strength") is planned as the general goal. *)
Theorem create_strategic_plan_shape :
  forall (self : Config) (user_profile : UserProfile),
    let plan := _create_strategic_plan self user_profile in
    (4 <= length (sub_goals plan) <= 7)%nat
    /\ List.NoDup (sub_goals plan)
    /\ length (search_strategies plan) = 2%nat
    /\ expected_iterations plan <= max_iterations self
    /\ expected_iterations plan <= 7
    /\ (visual_assessment user_profile = ∅ -> length (sub_goals plan) = 4%nat)
    /\ (String.eqb (profile_primary_goal user_profile) "weight_loss" = false ->
        String.eqb (profile_primary_goal user_profile) "muscle_gain" = false ->
        String.eqb (profile_primary_goal user_profile) "cardio" = false ->
        search_strategies plan = [BROAD_SEARCH; PROGRESSIVE_REFINEMENT]
        /\ take 4 (sub_goals plan)
           = ["find_foundational_exercises"; "identify_balanced_routines";
              "locate_beginner_progressions"; "discover_safety_guidelines"]).
Proof.
  intros self user_profile plan.
  pose proof (create_strategic_plan_goal_count self user_profile) as Hcount.
  fold plan in Hcount.
  split; [ exact Hcount | ].
  split; [ apply create_strategic_plan_distinct | ].
  split.
  { subst plan. unfold _create_strategic_plan.
    repeat (destruct (String.eqb (profile_primary_goal user_profile) _));
      reflexivity. }
  assert (Hexp : expected_iterations plan
                 = Z.min (Z.of_nat (length (sub_goals plan))) (max_iterations self)).
  { subst plan. unfold _create_strategic_plan.
    repeat (destruct (String.eqb (profile_primary_goal user_profile) _));
      reflexivity. }
  split; [ rewrite Hexp; lia | ]. split; [ rewrite Hexp; lia | ]. split.
  - intros Hnone. subst plan. unfold _create_strategic_plan, append_if, has_insight.
    rewrite Hnone.
    repeat (destruct (String.eqb (profile_primary_goal user_profile) _));
      reflexivity.
  - intros H1 H2 H3. subst plan. unfold _create_strategic_plan.
    rewrite H1, H2, H3. cbn [search_strategies sub_goals].
    split; [ reflexivity | ]. unfold append_if.
    repeat match goal with
           | |- context [has_insight ?v ?k] => destruct (has_insight v k)
           end;
      reflexivity.
Qed.

(** ** Queries issued by a round *)

Section Queries.

Context {St : Type} (search_exercises : SearchCapability St).

Lemma logged_call st log query top_k :
  logged search_exercises (st, log) query top_k
  = ((fst (search_exercises st query top_k), log ++ [query]),
     snd (search_exercises st query top_k)).
Proof.
  unfold logged. destruct (search_exercises st query top_k). reflexivity.
Qed.

Lemma search_each_fold_logged (convert : string -> Exercise -> SearchResult) terms :
  forall (acc : list SearchResult) st log,
    fold_left
      (fun '(results, st) term =>
         match logged search_exercises st term 5%nat with
         | (st', Some exercises) =>
             (results ++ map (convert term) (take 2 exercises), st')
         | (st', None) => (results, st')
         end)
      terms (acc, (st, log))
    = let run :=
        fold_left
          (fun '(results, st) term =>
             match search_exercises st term 5%nat with
             | (st', Some exercises) =>
                 (results ++ map (convert term) (take 2 exercises), st')
             | (st', None) => (results, st')
             end)
          terms (acc, st) in
      (fst run, (snd run, log ++ terms)).
Proof.
  induction terms as [| term rest IH]; intros acc st log.
  - cbn. rewrite app_nil_r. reflexivity.
  - cbn [fold_left]. rewrite logged_call.
    destruct (search_exercises st term 5%nat) as [st' [exercises |]];
      cbn [fst snd]; rewrite IH; cbn zeta; rewrite <- app_assoc; reflexivity.
Qed.

Lemma targeted_search_logged plan user_profile iteration st log :
  _execute_targeted_search (logged search_exercises) plan user_profile iteration
    (st, log)
  = let run := _execute_targeted_search search_exercises plan user_profile
                 iteration st in
    (fst run, (snd run, log ++ match sub_goals plan !! iteration with
                               | Some sub_goal => [targeted_query sub_goal]
                               | None => []
                               end)).
Proof.
  unfold _execute_targeted_search.
  destruct (iteration <? length (sub_goals plan))%nat eqn:Hrange.
  - destruct (sub_goals plan !! iteration) as [sub_goal |].
    + rewrite logged_call.
      destruct (search_exercises st (targeted_query sub_goal) 5%nat)
        as [st' [exercises |]]; reflexivity.
    + cbn. rewrite app_nil_r. reflexivity.
  - apply Nat.ltb_ge in Hrange. apply lookup_ge_None_2 in Hrange.
    rewrite Hrange. cbn. rewrite app_nil_r. reflexivity.
Qed.

(** X7. The queries of a round are fixed by the strategy, the plan and
    the iteration alone: a round issues exactly the queries of its table,
    once each and in order, whatever the capability answers, so a search
    that raises or returns nothing never cuts the round short; and
    recording the queries changes neither the results nor the store. *)
Theorem strategic_search_queries :
  forall (strategy : AgentStrategy) (plan : AgentPlan) (user_profile : UserProfile)
         (iteration : nat) (st : St) (log : list string),
    _execute_strategic_search (logged search_exercises) strategy plan user_profile
      iteration (st, log)
    = let run := _execute_strategic_search search_exercises strategy plan
                   user_profile iteration st in
      (fst run, (snd run, log ++ strategy_queries strategy plan iteration)).
Proof.
  intros strategy plan user_profile iteration st log.
  destruct strategy; cbn [_execute_strategic_search strategy_queries].
  - apply search_each_fold_logged.
  - apply targeted_search_logged.
  - apply targeted_search_logged.
  - apply search_each_fold_logged.
Qed.

End Queries.

(** ** A capability without hits *)

Section NoHit.

Context {St : Type} (search_exercises : SearchCapability St).
Hypothesis no_hit : yields_no_hit search_exercises.

Lemma search_each_fold_no_hit (convert : string -> Exercise -> SearchResult) terms :
  forall (acc : list SearchResult) st,
    fst (fold_left
           (fun '(results, st) term =>
              match search_exercises st term 5%nat with
              | (st', Some exercises) =>
                  (results ++ map (convert term) (take 2 exercises), st')
              | (st', None) => (results, st')
              end)
           terms (acc, st)) = acc.
Proof.
  induction terms as [| term rest IH]; intros acc st; [ reflexivity | ].
  cbn [fold_left]. specialize (no_hit st term 5%nat).
  destruct (search_exercises st term 5%nat) as [st' [exercises |]];
    cbn [snd] in no_hit.
  - destruct no_hit as [H | [= ->]]; [ discriminate H | ].
    cbn [take map]. rewrite app_nil_r. apply IH.
  - apply IH.
Qed.

Lemma strategic_search_no_hit strategy plan user_profile iteration st :
  fst (_execute_strategic_search search_exercises strategy plan user_profile
         iteration st) = [].
Proof.
  assert (Htargeted : forall i,
             fst (_execute_targeted_search search_exercises plan user_profile i st)
             = []).
  { intros i. unfold _execute_targeted_search.
    destruct (i <? length (sub_goals plan))%nat; [ | reflexivity ].
    destruct (sub_goals plan !! i) as [sub_goal |]; [ | reflexivity ].
    specialize (no_hit st (targeted_query sub_goal) 5%nat).
    destruct (search_exercises st (targeted_query sub_goal) 5%nat)
      as [st' [exercises |]]; cbn [snd] in no_hit; [ | reflexivity ].
    destruct no_hit as [H | [= ->]]; [ discriminate H | reflexivity ]. }
  destruct strategy; cbn [_execute_strategic_search].
  - apply search_each_fold_no_hit.
  - apply Htargeted.
  - apply Htargeted.
  - apply search_each_fold_no_hit.
Qed.

(** Without hits an iteration completes with an empty round, and stops
    only at the last allowed index. *)
Lemma iteration_body_no_hit self plan user_profile s iteration :
  search_results s = [] ->
  exists s',
    iteration_body search_exercises self plan user_profile s iteration
    = Return (s', (max_iterations self - 1 <=? Z.of_nat iteration)%Z)
    /\ search_results s' = []
    /\ rounds s' = rounds s ++ [([], [])]
    /\ current_strategy s'
       = Some (if (iteration =? 0)%nat then BROAD_SEARCH else MULTI_ANGLE_APPROACH).
Proof.
  intros Hempty. unfold iteration_body. rewrite Hempty.
  assert (Hselect : _select_optimal_strategy plan [] iteration
                    = Return (if (iteration =? 0)%nat then BROAD_SEARCH
                              else MULTI_ANGLE_APPROACH)).
  { unfold _select_optimal_strategy. destruct (iteration =? 0)%nat; reflexivity. }
  rewrite Hselect. cbn [bind].
  set (strategy := if (iteration =? 0)%nat then BROAD_SEARCH else MULTI_ANGLE_APPROACH).
  pose proof (strategic_search_no_hit strategy plan user_profile iteration (store s))
    as Hround.
  destruct (_execute_strategic_search search_exercises strategy plan user_profile
              iteration (store s)) as [iteration_results st'].
  cbn [fst] in Hround. subst iteration_results.
  cbn [_assess_result_quality bind app].
  unfold _should_stop_searching, get_meets_criteria.
  cbn [meets_criteria overall_score default].
  destruct (max_iterations self - 1 <=? Z.of_nat iteration)%Z;
    eexists; (split; [ reflexivity | ]); repeat split.
Qed.

Lemma run_iterations_no_hit self plan user_profile count : forall start s,
  search_results s = [] ->
  (start + count)%nat = Z.to_nat (max_iterations self) ->
  let outcome := run_iterations search_exercises self plan user_profile
                   (seq start count) s in
  snd outcome = None
  /\ search_results (fst outcome) = []
  /\ rounds (fst outcome) = rounds s ++ repeat ([], []) count
  /\ ((0 < count)%nat ->
      current_strategy (fst outcome)
      = Some (if (start + count =? 1)%nat then BROAD_SEARCH
              else MULTI_ANGLE_APPROACH)).
Proof.
  induction count as [| count IH]; intros start s Hempty Hsum; cbn zeta.
  - cbn. rewrite app_nil_r. repeat split; [ exact Hempty | lia ].
  - cbn [seq run_iterations].
    destruct (iteration_body_no_hit self plan user_profile s start Hempty)
      as (s' & -> & Hempty' & Hrounds & Hcurrent).
    destruct (Z.leb_spec (max_iterations self - 1) (Z.of_nat start)) as [Hlast | Hmore].
    + assert (count = 0%nat) by lia. subst count. cbn [fst snd repeat].
      repeat split; [ exact Hempty' | exact Hrounds | ].
      intros _. rewrite Hcurrent.
      replace (start + 1 =? 1)%nat with (start =? 0)%nat; [ reflexivity | ].
      destruct start; [ reflexivity | ].
      symmetry. apply Nat.eqb_neq. lia.
    + destruct (IH (S start) s' Hempty' ltac:(lia)) as (Hnone & Hres & Hr & Hc).
      repeat split; [ exact Hnone | exact Hres | | ].
      * rewrite Hr, Hrounds, <- app_assoc. reflexivity.
      * intros _. assert (Hpos : (0 < count)%nat) by lia.
        rewrite (Hc Hpos).
        replace (S start + count =? 1)%nat with false
          by (symmetry; apply Nat.eqb_neq; lia).
        replace (start + S count =? 1)%nat with false
          by (symmetry; apply Nat.eqb_neq; lia).
        reflexivity.
Qed.

End NoHit.

Lemma goal_achievement_without_results n :
  (4 <= n <= 7)%nat ->
  PrimFloat.leb (Py.of_nat n * 0.7)%float (Py.of_nat 0) = false.
Proof.
  intros Hn.
  assert (Hcases : n = 4%nat \/ n = 5%nat \/ n = 6%nat \/ n = 7%nat) by lia.
  destruct Hcases as [-> | [-> | [-> | ->]]]; vm_compute; reflexivity.
Qed.

Lemma counts_of_empty_rounds n :
  map (fun round : list SearchResult * list SearchResult => length (fst round))
      (repeat ([], []) n)
  = repeat 0%nat n.
Proof. induction n as [| n IH]; [ reflexivity | cbn; rewrite IH; reflexivity ]. Qed.



(** ** Runs that stop after their first round *)

Lemma search_each_fold_Forall {St} (search_exercises : SearchCapability St)
    (P : SearchResult -> Prop) (convert : string -> Exercise -> SearchResult) terms :
  (forall term exercise, P (convert term exercise)) ->
  forall (acc : list SearchResult) st,
    List.Forall P acc ->
    List.Forall P
      (fst (fold_left
              (fun '(results, st) term =>
                 match search_exercises st term 5%nat with
                 | (st', Some exercises) =>
                     (results ++ map (convert term) (take 2 exercises), st')
                 | (st', None) => (results, st')
                 end)
              terms (acc, st))).
Proof.
  intros Hconv. induction terms as [| term rest IH]; intros acc st Hacc;
    [ exact Hacc | ].
  cbn [fold_left].
  destruct (search_exercises st term 5%nat) as [st' [exercises |]].
  - apply IH. apply List.Forall_app. split; [ exact Hacc | ].
    apply List.Forall_forall. intros r Hr.
    apply List.in_map_iff in Hr. destruct Hr as (exercise & <- & _). apply Hconv.
  - apply IH. exact Hacc.
Qed.

Lemma broad_search_source {St} (search_exercises : SearchCapability St)
    plan user_profile st :
  List.Forall (fun r => source r = "chromadb")
    (fst (_execute_broad_search search_exercises plan user_profile st)).
Proof.
  unfold _execute_broad_search, search_each.
  apply search_each_fold_Forall; [ reflexivity | constructor ].
Qed.

Lemma distinct_constant (a : string) (xs : list string) :
  List.Forall (fun x => x = a) xs -> (Py.distinct xs <= 1)%nat.
Proof.
  unfold Py.distinct. induction 1 as [| x rest Hx Hrest IH]; [ cbn; lia | ].
  cbn [remove_dups]. destruct (decide_rel elem_of x rest) as [_ | Hnew];
    [ exact IH | ].
  destruct rest as [| y rest]; [ cbn; lia | ].
  exfalso. apply Hnew. apply List.Forall_inv in Hrest. subst x y.
  apply list_elem_of_here.
Qed.

Lemma should_stop_false_not_last self quality plan iteration :
  _should_stop_searching self quality plan iteration = false ->
  (Z.of_nat iteration < max_iterations self - 1)%Z.
Proof.
  unfold _should_stop_searching.
  destruct (get_meets_criteria quality); [ discriminate | ].
  destruct (Z.leb_spec (max_iterations self - 1) (Z.of_nat iteration));
    [ discriminate | ].
  intros _. assumption.
Qed.

(** X9. When a run on a planner's plan takes exactly one round, that round
    is a broad search: the accumulated results are those of the broad
    search on the initial store, the agent memory is left as it was (a
    round that stops the loop is never recorded), the payload names the
    broad search as the only strategy employed, and the reflection, when
    there is one, reports no strategy adaptation, since all results carry
    the source "chromadb". *)
Theorem single_round_run :
  forall (St : Type) (search_exercises : SearchCapability St) (self : Config)
         (user_data : UserData) (image_analysis : string)
         (memory : gmap string (list MemoryEntry)) (st : St),
    let user_profile := _analyze_user_profile user_data image_analysis in
    let plan := _create_strategic_plan self user_profile in
    let final := fst (agentic_loop search_exercises self plan user_profile memory st) in
    length (rounds final) = 1%nat ->
    search_results final
    = fst (_execute_broad_search search_exercises plan user_profile st)
    /\ current_strategy final = Some BROAD_SEARCH
    /\ successful_strategies final = memory
    /\ exists payload,
         generate_recommendation search_exercises self user_data image_analysis
           memory st = Return payload
         /\ strategies_employed payload = ["broad_search"]
         /\ (forall insights,
                agentic_insights payload = Some insights ->
                strategy_adaptation insights = false).
Proof.
  intros St search_exercises self user_data image_analysis memory st
         user_profile plan final Hone.
  destruct (create_strategic_plan_nonempty self user_profile) as [Hgoals Hstrategies].
  fold plan in Hgoals, Hstrategies.
  assert (Hfinal : search_results final
                   = fst (_execute_broad_search search_exercises plan user_profile st)
                   /\ current_strategy final = Some BROAD_SEARCH
                   /\ successful_strategies final = memory).
  { subst final. revert Hone. unfold agentic_loop.
    destruct (Z.to_nat (max_iterations self)) as [| more] eqn:Hmax;
      [ cbn; discriminate | ].
    cbn [seq run_iterations].
    destruct (iteration_body_returns search_exercises self plan user_profile
                Hgoals Hstrategies (initial_state memory st) 0)
      as (s1 & stop & Hbody).
    rewrite Hbody.
    destruct (iteration_body_round _ _ _ _ _ _ _ _ Hbody)
      as (strategy & q & Hselect & _ & Hstop & Hresults & Hrounds & Hcurrent
          & _ & Hmemory).
    injection Hselect as <-.
    cbn [search_results rounds store successful_strategies initial_state app
         _execute_strategic_search] in Hresults, Hrounds, Hmemory.
    destruct stop.
    - cbn [fst]. intros _. rewrite Hresults, Hcurrent, Hmemory. repeat split.
    - symmetry in Hstop. apply should_stop_false_not_last in Hstop.
      destruct more as [| more]; [ lia | ].
      cbn [seq run_iterations].
      destruct (iteration_body_returns search_exercises self plan user_profile
                  Hgoals Hstrategies s1 1) as (s2 & stop2 & Hbody2).
      rewrite Hbody2.
      destruct (iteration_body_round _ _ _ _ _ _ _ _ Hbody2)
        as (strategy2 & q2 & _ & _ & _ & _ & Hrounds2 & _).
      destruct (run_iterations_rounds_prefix search_exercises self plan user_profile
                  (seq 2 more) s2) as [later Hlater].
      intros Hlen. exfalso.
      destruct stop2; cbn [fst] in Hlen.
      + rewrite Hrounds2, Hrounds in Hlen. rewrite !length_app in Hlen.
        cbn [length] in Hlen. lia.
      + rewrite Hlater, Hrounds2, Hrounds in Hlen. rewrite !length_app in Hlen.
        cbn [length] in Hlen. lia. }
  destruct Hfinal as (Hresults & Hcurrent & Hmemory).
  split; [ exact Hresults | ]. split; [ exact Hcurrent | ].
  split; [ exact Hmemory | ].
  pose proof (planned_loop_completes search_exercises self user_profile memory st)
    as Hdone.
  fold plan in Hdone.
  unfold generate_recommendation. fold user_profile. fold plan.
  destruct (agentic_loop search_exercises self plan user_profile memory st)
    as [s raised] eqn:Hloop.
  cbn [snd] in Hdone. subst raised. cbn [fst] in final. subst final.
  eexists. split; [ reflexivity | ].
  cbn [strategies_employed agentic_insights]. rewrite Hcurrent.
  split; [ reflexivity | ].
  intros insights Hinsights.
  destruct (reflection_mode self); [ | discriminate ].
  injection Hinsights as <-.
  cbn [strategy_adaptation _generate_reflection_insights].
  apply Nat.ltb_ge. rewrite Hresults.
  apply (distinct_constant "chromadb").
  apply List.Forall_map. apply broad_search_source.
Qed.

(** The run of the rich store stops after its first round. *)
Lemma single_round_run_witness :
  let user_profile := _analyze_user_profile (user_aged 30) "" in
  let plan := _create_strategic_plan default_config user_profile in
  let final := fst (agentic_loop rich_search default_config plan user_profile ∅ tt) in
  length (rounds final) = 1%nat
  /\ current_strategy final = Some BROAD_SEARCH
  /\ successful_strategies final = ∅.
Proof.
  assert (Hone : length (rounds (fst (agentic_loop rich_search default_config
                   (_create_strategic_plan default_config
                      (_analyze_user_profile (user_aged 30) ""))
                   (_analyze_user_profile (user_aged 30) "") ∅ tt))) = 1%nat)
    by (vm_compute; reflexivity).
  destruct (single_round_run unit rich_search default_config (user_aged 30) "" ∅ tt
              Hone) as (_ & Hcurrent & Hmemory & _).
  split; [ exact Hone | ]. split; [ exact Hcurrent | exact Hmemory ].
Defined.

(** ** The agent memory across runs *)

Lemma value_is_strategy_key strategy : In (value strategy) strategy_keys.
Proof. destruct strategy; cbn; tauto. Qed.

Lemma update_agent_memory_windows memory strategy results quality :
  windows_bounded memory ->
  windows_bounded (_update_agent_memory memory strategy results quality).
Proof.
  intros Hbounded key. rewrite update_agent_memory_stored.
  destruct (String.eqb (value strategy) key); [ apply last_n_length | apply Hbounded ].
Qed.

Lemma update_agent_memory_other_key memory strategy results quality key :
  ~ In key strategy_keys ->
  stored (_update_agent_memory memory strategy results quality) key
  = stored memory key.
Proof.
  intros Hkey. rewrite update_agent_memory_stored.
  destruct (String.eqb_spec (value strategy) key) as [<- | _]; [ | reflexivity ].
  exfalso. apply Hkey, value_is_strategy_key.
Qed.

Section MemoryInvariant.

Context {St : Type} (search_exercises : SearchCapability St).
Context (self : Config) (plan : AgentPlan) (user_profile : UserProfile).

Lemma run_iterations_memory iterations : forall s,
  let final := fst (run_iterations search_exercises self plan user_profile
                      iterations s) in
  (windows_bounded (successful_strategies s) ->
   windows_bounded (successful_strategies final))
  /\ (forall key, ~ In key strategy_keys ->
        stored (successful_strategies final) key
        = stored (successful_strategies s) key).
Proof.
  induction iterations as [| iteration rest IH]; intros s; cbn zeta.
  - cbn. split; [ trivial | reflexivity ].
  - cbn [run_iterations].
    destruct (iteration_body search_exercises self plan user_profile s iteration)
      as [[s' stop] | e] eqn:Hbody; [ | cbn; split; [ trivial | reflexivity ] ].
    destruct (iteration_body_round _ _ _ _ _ _ _ _ Hbody)
      as (strategy & q & _ & _ & _ & _ & _ & _ & _ & Hmemory).
    destruct stop.
    + cbn [fst]. rewrite Hmemory. split; [ trivial | reflexivity ].
    + destruct (IH s') as [Hwin Hother]. rewrite Hmemory in Hwin, Hother. split.
      * intros Hs. apply Hwin. apply update_agent_memory_windows. exact Hs.
      * intros key Hkey. rewrite (Hother key Hkey).
        apply update_agent_memory_other_key. exact Hkey.
Qed.

End MemoryInvariant.

(** X10. A run keeps the window bound of the agent memory: when every key
    of the controller's memory holds at most 10 entries before a run, so
    does every key after it, whatever the plan and the capability; and a
    run changes nothing under a key that is not one of the four strategy
    names. *)
Theorem agentic_loop_memory_windows :
  forall (St : Type) (search_exercises : SearchCapability St) (self : Config)
         (plan : AgentPlan) (user_profile : UserProfile)
         (memory : gmap string (list MemoryEntry)) (st : St),
    windows_bounded memory ->
    let final := fst (agentic_loop search_exercises self plan user_profile memory st) in
    windows_bounded (successful_strategies final)
    /\ (forall key, ~ In key strategy_keys ->
          stored (successful_strategies final) key = stored memory key).
Proof.
  intros St search_exercises self plan user_profile memory st Hbounded final.
  destruct (run_iterations_memory search_exercises self plan user_profile
              (seq 0 (Z.to_nat (max_iterations self))) (initial_state memory st))
    as [Hwin Hother].
  split; [ apply Hwin; exact Hbounded | exact Hother ].
Qed.

(** A fresh controller: the memory after the three-round run is within
    the bound. *)
Lemma agentic_loop_memory_windows_witness :
  let user_profile := _analyze_user_profile (user_aged 30) "" in
  let plan := _create_strategic_plan default_config user_profile in
  windows_bounded
    (successful_strategies
       (fst (agentic_loop first_only_search default_config plan user_profile ∅
               0%nat))).
Proof.
  refine (proj1 (agentic_loop_memory_windows nat first_only_search default_config
                   _ _ ∅ 0%nat _)).
  intros key. rewrite stored_empty. apply Nat.le_0_l.
Defined.

(** ** Final quality metrics *)

(** X11. With a planner's plan the final quality metrics never raise:
    they are all 0.0 when no result was found, and otherwise their
    [overall_quality] is the number the reflection reports as
    [search_efficiency].  Only a plan without sub-goals makes them raise,
    and only when there are results. *)
Theorem final_quality_metrics_total :
  forall (self : Config) (user_profile : UserProfile) (results : list SearchResult),
    let plan := _create_strategic_plan self user_profile in
    (exists metrics,
        _calculate_final_quality_metrics results plan = Return metrics
        /\ overall_quality metrics
           = search_efficiency (_generate_reflection_insights plan results)
        /\ (results = [] ->
            overall_quality metrics = 0%float
            /\ goal_coverage metrics = 0%float
            /\ confidence metrics = 0%float))
    /\ (forall degenerate : AgentPlan,
           sub_goals degenerate = [] ->
           _calculate_final_quality_metrics results degenerate
           = match results with
             | [] => Return {| overall_quality := 0; goal_coverage := 0;
                               confidence := 0 |}
             | _ => Raise ZeroDivisionError
             end).
Proof.
  intros self user_profile results plan. split.
  - destruct (create_strategic_plan_nonempty self user_profile) as [Hgoals _].
    fold plan in Hgoals.
    unfold _calculate_final_quality_metrics.
    destruct results as [| r rest].
    + eexists. split; [ reflexivity | ]. repeat split.
    + destruct (sub_goals plan) as [| g goals] eqn:Hsub; [ contradiction | ].
      eexists. split; [ reflexivity | ]. split; [ reflexivity | ]. discriminate.
  - intros degenerate Hnone. unfold _calculate_final_quality_metrics.
    rewrite Hnone. destruct results; reflexivity.
Qed.

(** ** Characters that a query or a source tag never contains *)

Lemma contains_char_cons c x rest :
  Py.contains (String c "") (String x rest)
  = (if Ascii.ascii_dec c x then true else false) || Py.contains (String c "") rest.
Proof.
  rewrite contains_cons, prefix_cons.
  destruct (Ascii.ascii_dec c x); [ rewrite prefix_nil | ]; reflexivity.
Qed.

Lemma replace_from_char c d : c <> d -> forall s,
  Py.contains (String c "") (Py.replace_from (String c "") (String d "") 0 s) = false.
Proof.
  intros Hcd. induction s as [| x rest IH]; [ reflexivity | ].
  cbn [Py.replace_from]. rewrite prefix_cons.
  destruct (Ascii.ascii_dec c x) as [-> | Hcx].
  - rewrite prefix_nil. cbn [String.length Nat.sub]. rewrite append_cons, append_nil_l.
    rewrite contains_char_cons, IH.
    destruct (Ascii.ascii_dec x d); [ contradiction | reflexivity ].
  - rewrite contains_char_cons, IH.
    destruct (Ascii.ascii_dec c x); [ contradiction | reflexivity ].
Qed.

Lemma contains_char_append c (a b : string) :
  Py.contains (String c "") (a ++ b)
  = Py.contains (String c "") a || Py.contains (String c "") b.
Proof.
  induction a as [| x a IH].
  - rewrite append_nil_l. reflexivity.
  - rewrite append_cons, !contains_char_cons, IH, orb_assoc. reflexivity.
Qed.

(** X12. The query of a targeted search never contains an underscore,
    whatever the sub-goal, and the source tag of a multi-angle result never
    contains a space, whatever the angle. *)
Theorem query_and_source_characters :
  (forall sub_goal : string, Py.contains "_" (targeted_query sub_goal) = false)
  /\ (forall (angle : string) (exercise : Exercise),
         Py.contains " " (source (multi_angle_result angle exercise)) = false).
Proof.
  split.
  - intros sub_goal. unfold targeted_query, Py.replace.
    apply replace_from_char. discriminate.
  - intros angle exercise. cbn [source multi_angle_result].
    rewrite contains_char_append. unfold Py.replace.
    rewrite replace_from_char by discriminate. reflexivity.
Qed.

(** ** The vector store's search *)

Lemma format_exercise_fields results i exercise :
  format_exercise results i = Some exercise ->
  first_at (qr_documents results) i = ex_content exercise
  /\ (qr_distances results = None -> ex_distance exercise = None).
Proof.
  unfold format_exercise.
  destruct (first_at (qr_documents results) i) as [document |]; [ | discriminate ].
  destruct (first_at (qr_metadatas results) i) as [metadata |]; [ | discriminate ].
  destruct (qr_distances results) as [distances |].
  - destruct (first_at distances i); [ | discriminate ].
    intros [= <-]. split; [ reflexivity | discriminate ].
  - intros [= <-]. split; reflexivity.
Qed.

Lemma format_exercises_fields results indices : forall exercises,
  format_exercises results indices = Some exercises ->
  map ex_content exercises = map (first_at (qr_documents results)) indices
  /\ (qr_distances results = None ->
      List.Forall (fun exercise => ex_distance exercise = None) exercises).
Proof.
  induction indices as [| i rest IH]; intros exercises.
  - intros [= <-]. split; [ reflexivity | constructor ].
  - cbn [format_exercises].
    destruct (format_exercise results i) as [exercise |] eqn:Hone; [ | discriminate ].
    destruct (format_exercises results rest) as [others |]; [ | discriminate ].
    intros [= <-].
    destruct (format_exercise_fields _ _ _ Hone) as [Hcontent Hdistance].
    destruct (IH others eq_refl) as [Hcontents Hdistances].
    split.
    + cbn [map]. rewrite Hcontent, Hcontents. reflexivity.
    + intros Hnone. constructor; [ apply Hdistance | apply Hdistances ]; exact Hnone.
Qed.

Lemma nth_error_all {A} (xs : list A) :
  map (nth_error xs) (seq 0 (length xs)) = map Some xs.
Proof.
  induction xs as [| x rest IH] using rev_ind; [ reflexivity | ].
  rewrite length_app. cbn [length]. rewrite Nat.add_1_r, seq_S, !map_app.
  cbn [map Nat.add]. f_equal.
  - rewrite <- IH. apply map_ext_in. intros i Hi.
    apply in_seq in Hi. apply nth_error_app1. lia.
  - rewrite nth_error_app2 by lia. rewrite Nat.sub_diag. reflexivity.
Qed.

Lemma first_at_documents (documents : list string) others :
  map (first_at (Some (documents :: others))) (seq 0 (length documents))
  = map Some documents.
Proof.
  change (first_at (Some (documents :: others))) with (nth_error documents).
  apply nth_error_all.
Qed.


Lemma store_without_documents_yields_no_hit {St} (query_collection : Collection St) :
  (forall st query top_k,
      match snd (query_collection st query top_k) with
      | None => True
      | Some results => qr_documents results = None \/ qr_documents results = Some []
      end) ->
  yields_no_hit (store_search_exercises query_collection).
Proof.
  intros Hdown st query top_k. right.
  specialize (Hdown st query top_k). unfold store_search_exercises.
  destruct (query_collection st query top_k) as [st' [results |]];
    cbn [snd] in *; [ | reflexivity ].
  destruct Hdown as [-> | ->]; reflexivity.
Qed.



(** ** Calls to the capability per round *)

(** X15. On a planner's plan and at any of the first four iterations a
    round calls the capability 4 times with the broad search, 3 times with
    the multi-angle search and exactly once with the targeted search and
    the progressive refinement, whatever the capability answers: up to
    four iterations the targeted search is never skipped for want of a
    sub-goal, and no round calls the capability more than 4 times. *)
Theorem planned_round_query_count :
  forall (St : Type) (search_exercises : SearchCapability St) (self : Config)
         (user_profile : UserProfile) (strategy : AgentStrategy)
         (iteration : nat) (st : St),
    (iteration < 4)%nat ->
    let plan := _create_strategic_plan self user_profile in
    let run := _execute_strategic_search (logged search_exercises) strategy plan
                 user_profile iteration (st, []) in
    length (snd (snd run))
    = match strategy with
      | BROAD_SEARCH => 4%nat
      | MULTI_ANGLE_APPROACH => 3%nat
      | TARGETED_SEARCH | PROGRESSIVE_REFINEMENT => 1%nat
      end.
Proof.
  intros St search_exercises self user_profile strategy iteration st Hearly plan.
  pose proof (create_strategic_plan_goal_count self user_profile) as Hcount.
  fold plan in Hcount.
  assert (Hlookup : forall i, (i < 4)%nat -> is_Some (sub_goals plan !! i))
    by (intros i Hi; apply lookup_lt_is_Some_2; lia).
  destruct strategy; cbn [_execute_strategic_search]; cbv zeta.
  - unfold _execute_broad_search, search_each.
    rewrite search_each_fold_logged. cbn [snd app]. apply length_search_terms.
  - rewrite targeted_search_logged. cbn [snd app].
    destruct (Hlookup iteration Hearly) as [sub_goal ->]. reflexivity.
  - unfold _execute_progressive_refinement.
    rewrite targeted_search_logged. cbn [snd app].
    destruct (Hlookup 0%nat ltac:(lia)) as [sub_goal ->]. reflexivity.
  - unfold _execute_multi_angle_search, search_each.
    rewrite search_each_fold_logged. cbn [snd app]. apply length_angle_searches.
Qed.

(** The third round of a cardio plan, as a targeted search. *)
Lemma planned_round_query_count_witness :
  (2 < 4)%nat
  /\ length (snd (snd (_execute_strategic_search (logged rich_search) TARGETED_SEARCH
                         (_create_strategic_plan default_config
                            (_analyze_user_profile (user_aged 30) ""))
                         (_analyze_user_profile (user_aged 30) "") 2 (tt, []))))
     = 1%nat.
Proof.
  split; [ lia | ].
  apply (planned_round_query_count unit rich_search default_config
           (_analyze_user_profile (user_aged 30) "") TARGETED_SEARCH 2 tt).
  lia.
Defined.

(** ** The floating-point threshold within a run *)

Lemma appends_only_lengths history : forall before,
  appends_only before history ->
  List.Forall
    (fun round => (length (snd round) <= length (accumulated before history))%nat)
    history.
Proof.
  induction history as [| [new after] rest IH]; intros before Hhistory;
    [ constructor | ].
  cbn [appends_only] in Hhistory. destruct Hhistory as [Hafter Hrest].
  change (accumulated before ((new, after) :: rest)) with (accumulated after rest).
  constructor; [ | apply IH; exact Hrest ].
  cbn [snd]. rewrite (appends_only_concat rest after Hrest), length_app. lia.
Qed.

(** X16. With [max_iterations] up to 11 (the default is 3) the
    floating-point test "generic count > len * 0.7" is exact at every
    point of a run: on the sequence accumulated after each round, which is
    what the next strategy selection reads, it holds exactly when more
    than 70% of the results are generic. *)
Theorem lack_specificity_exact_in_runs :
  forall (St : Type) (search_exercises : SearchCapability St) (self : Config)
         (plan : AgentPlan) (user_profile : UserProfile)
         (memory : gmap string (list MemoryEntry)) (st : St),
    max_iterations self <= 11 ->
    let final := fst (agentic_loop search_exercises self plan user_profile memory st) in
    List.Forall
      (fun round =>
         _results_lack_specificity (snd round) = true
         <-> (7 * length (snd round) < 10 * general_count (snd round))%nat)
      (rounds final).
Proof.
  intros St search_exercises self plan user_profile memory st Hmax final.
  destruct (agentic_loop_history search_exercises self plan user_profile memory st)
    as [[Hhistory Haccumulated] Hbound].
  fold final in Hhistory, Haccumulated, Hbound.
  assert (Hcounts : List.Forall (fun c => (c <= 8)%nat) (round_counts final))
    by (apply run_iterations_round_counts; constructor).
  assert (Htotal : (length (search_results final) <= 88)%nat).
  { rewrite (history_ok_sum final (conj Hhistory Haccumulated)).
    etransitivity; [ apply (list_sum_le_bound 8); exact Hcounts | ].
    unfold round_counts. rewrite length_map. lia. }
  eapply List.Forall_impl; [ | apply (appends_only_lengths _ [] Hhistory) ].
  intros round Hlength. rewrite <- Haccumulated in Hlength.
  apply lack_specificity_exact. lia.
Qed.

(** The default configuration is within the bound. *)
Lemma lack_specificity_exact_in_runs_witness :
  let user_profile := _analyze_user_profile (user_aged 30) "" in
  let plan := _create_strategic_plan default_config user_profile in
  List.Forall
    (fun round =>
       _results_lack_specificity (snd round) = true
       <-> (7 * length (snd round) < 10 * general_count (snd round))%nat)
    (rounds (fst (agentic_loop rich_search default_config plan user_profile ∅ tt))).
Proof.
  refine (lack_specificity_exact_in_runs unit rich_search default_config _ _ ∅ tt _).
  cbn. lia.
Defined.
